(** * tds_project1: the webhook receiver of [main.py]

    A shallow embedding of [main.py] and the properties of its specification.

    The program is a sequence of HTTP calls.  The outside world is an
    environment that answers every outbound call, possibly depending on
    everything that happened before; each function of the program is a
    computation that threads the chronological trace of outbound calls and
    sleeps and either returns a value or raises a Python exception.
    Printing to standard output is not modelled. *)

From Stdlib Require Import ZArith String List Ascii Bool Lia DecimalString.
From Stdlib Require DecimalZ DecimalPos.
Import ListNotations.
Open Scope string_scope.
Open Scope Z_scope.

#[local] Set Warnings "-register-all".

(** ** Python values *)

Module Py.

(** The values the program handles: what [json()] of a request or response
    yields, [None] included.  A float is kept by the two observations the
    program can make of it, its truth value and its [repr]. *)
Inductive value : Type :=
| VNone
| VBool (b : bool)
| VInt (z : Z)
| VFloat (nonzero : bool) (repr : string)
| VStr (s : string)
| VList (l : list value)
| VDict (d : list (string * value)).

Inductive exn : Type :=
| RequestException
| JSONDecodeError
| AttributeError
| TypeError.

Inductive result (A : Type) : Type :=
| Ok (a : A)
| Err (e : exn).
Arguments Ok {A} a.
Arguments Err {A} e.

Definition dq : string := String "034"%char EmptyString.
Definition sq : string := "'".

(** Dictionaries keep insertion order; a key occurs once. *)
Fixpoint lookup (k : string) (d : list (string * value)) : option value :=
  match d with
  | [] => None
  | (k', v) :: d' => if String.eqb k k' then Some v else lookup k d'
  end.

Fixpoint dict_set (k : string) (v : value) (d : list (string * value))
  : list (string * value) :=
  match d with
  | [] => [(k, v)]
  | (k', v') :: d' =>
      if String.eqb k k' then (k', v) :: d' else (k', v') :: dict_set k v d'
  end.

(** [x.get(k, default)]: only a dict has the method. *)
Definition get (x : value) (k : string) (default : value) : result value :=
  match x with
  | VDict d => Ok (match lookup k d with Some v => v | None => default end)
  | _ => Err AttributeError
  end.

(** Truth value, as [if x:] and [x or y] test it. *)
Definition truthy (x : value) : bool :=
  match x with
  | VNone => false
  | VBool b => b
  | VInt z => negb (z =? 0)
  | VFloat nonzero _ => nonzero
  | VStr s => negb (String.eqb s EmptyString)
  | VList l => match l with [] => false | _ => true end
  | VDict d => match d with [] => false | _ => true end
  end.

(** [x or y], with [y] already evaluated. *)
Definition or_ (x y : value) : value := if truthy x then x else y.

(** [os.getenv] gives a string or [None]. *)
Definition of_env (x : option string) : value :=
  match x with Some s => VStr s | None => VNone end.

(** [x != y] where [y] is a string or [None]: a string equals only the same
    string, [None] only [None]. *)
Definition ne_env (x : value) (y : option string) : bool :=
  match x, y with
  | VNone, None => false
  | VStr a, Some b => negb (String.eqb a b)
  | _, _ => true
  end.

(** [for e in x]: the elements of a list, the keys of a dict, the characters
    of a string; nothing else is iterable. *)
Fixpoint chars (s : string) : list value :=
  match s with
  | EmptyString => []
  | String c s' => VStr (String c EmptyString) :: chars s'
  end.

Definition iter (x : value) : result (list value) :=
  match x with
  | VList l => Ok l
  | VDict d => Ok (map (fun kv => VStr (fst kv)) d)
  | VStr s => Ok (chars s)
  | _ => Err TypeError
  end.

(** [s.lower()] on the ASCII letters; other bytes are kept. *)
Definition lower_ascii (c : ascii) : ascii :=
  let n := nat_of_ascii c in
  if (65 <=? n)%nat && (n <=? 90)%nat then ascii_of_nat (n + 32) else c.

Fixpoint lower_string (s : string) : string :=
  match s with
  | EmptyString => EmptyString
  | String c s' => String (lower_ascii c) (lower_string s')
  end.

Definition lower (x : value) : result string :=
  match x with
  | VStr s => Ok (lower_string s)
  | _ => Err AttributeError
  end.

(** [needle in hay] on strings. *)
Fixpoint contains (needle hay : string) : bool :=
  if String.prefix needle hay then true
  else match hay with
       | EmptyString => false
       | String _ hay' => contains needle hay'
       end.

(** [str(n)] of an integer. *)
Definition decimal (z : Z) : string := NilZero.string_of_int (Z.to_int z).

(** [repr] of a string: single quotes unless the string has one and no double
    quote; the quote and the backslash escaped, control characters written as
    escapes.  Bytes from 128 up are kept: non-ASCII text is taken to be
    printable, where CPython also escapes the characters of it that are not
    (U+0080 to U+00A0, U+00AD and the like).  Only [str] of a list or an
    object that holds such a string is affected. *)
Definition hex_digit (n : nat) : ascii :=
  match String.get n "0123456789abcdef" with
  | Some c => c
  | None => "0"%char
  end.

Definition escape_char (quote c : ascii) : string :=
  let n := nat_of_ascii c in
  if Ascii.eqb c quote || Ascii.eqb c "\"%char then String "\"%char (String c EmptyString)
  else if (n =? 9)%nat then "\t"
  else if (n =? 10)%nat then "\n"
  else if (n =? 13)%nat then "\r"
  else if (n <? 32)%nat || (n =? 127)%nat
       then "\x" ++ String (hex_digit (n / 16)%nat) (String (hex_digit (n mod 16)%nat) EmptyString)
  else String c EmptyString.

Fixpoint escape (quote : ascii) (s : string) : string :=
  match s with
  | EmptyString => EmptyString
  | String c s' => escape_char quote c ++ escape quote s'
  end.

Definition repr_str (s : string) : string :=
  let quote := if contains sq s && negb (contains dq s) then dq else sq in
  match quote with
  | String q _ => quote ++ escape q s ++ quote
  | EmptyString => s
  end.

Fixpoint join (sep : string) (l : list string) : string :=
  match l with
  | [] => EmptyString
  | [x] => x
  | x :: l' => x ++ sep ++ join sep l'
  end.

Fixpoint repr (x : value) : string :=
  match x with
  | VNone => "None"
  | VBool true => "True"
  | VBool false => "False"
  | VInt z => decimal z
  | VFloat _ r => r
  | VStr s => repr_str s
  | VList l => "[" ++ join ", " (map repr l) ++ "]"
  | VDict d =>
      "{" ++ join ", " (map (fun kv : string * value =>
                         match kv with (k, v) => repr_str k ++ ": " ++ repr v end) d) ++ "}"
  end.

(** [str(x)], what an f-string substitutes for [{x}]. *)
Definition str (x : value) : string :=
  match x with
  | VStr s => s
  | _ => repr x
  end.

(** [base64.b64encode(content.encode()).decode()]; a string is its UTF-8 bytes. *)
Definition b64_alphabet : string :=
  "ABCDEFGHIJKLMNOPQRSTUVWXYZabcdefghijklmnopqrstuvwxyz0123456789+/".

Definition b64_char (n : nat) : ascii :=
  match String.get n b64_alphabet with
  | Some c => c
  | None => "="%char
  end.

Fixpoint b64encode (s : string) : string :=
  match s with
  | EmptyString => EmptyString
  | String a EmptyString =>
      let x := nat_of_ascii a in
      String (b64_char (x / 4)) (String (b64_char (x mod 4 * 16)) "==")
  | String a (String b EmptyString) =>
      let x := nat_of_ascii a in
      let y := nat_of_ascii b in
      String (b64_char (x / 4))
        (String (b64_char (x mod 4 * 16 + y / 16))
           (String (b64_char (y mod 16 * 4)) "="))
  | String a (String b (String c s')) =>
      let x := nat_of_ascii a in
      let y := nat_of_ascii b in
      let z := nat_of_ascii c in
      String (b64_char (x / 4))
        (String (b64_char (x mod 4 * 16 + y / 16))
           (String (b64_char (y mod 16 * 4 + z / 64))
              (String (b64_char (z mod 64)) (b64encode s'))))
  end%nat.

End Py.
Import Py.

(** ** The outside world *)

(** A response of the [requests] library: its status code and what [r.json()]
    gives, [None] when the body does not parse (the call then raises). *)
Record Response : Type := mkResponse {
  status_code : Z;
  body : option value
}.

(** The two ways the program reaches the network: [requests.request(method,
    url, headers=HEADERS, json=...)] inside [gh_request], and
    [requests.post(evaluation_url, json=payload, timeout=10)]. *)
Inductive call : Type :=
| Request (method url : string) (headers : list (string * string)) (json : option value)
| Post (url : value) (json : value) (timeout : Z).

Inductive outcome : Type :=
| Returns (r : Response)
| Raises (e : exn).

Inductive event : Type :=
| Called (c : call) (o : outcome)
| Slept (seconds : Z).

(** The environment answers a call knowing everything that happened so far. *)
Definition Env : Type := list event -> call -> outcome.

(** [int(time.time())] as read when the repository is named, and
    [time.localtime().tm_year] as read when the license text is built. *)
Record Clock : Type := mkClock {
  time_time : Z;
  tm_year : Z
}.

(** The process environment, read once at import. *)
Record Config : Type := mkConfig {
  GITHUB_TOKEN : option string;
  GITHUB_USER : option string;
  SECRET : option string
}.

(** ** Computations *)

Definition IO (A : Type) : Type := list event -> result A * list event.

Definition ret {A} (a : A) : IO A := fun t => (Ok a, t).

Definition bind {A B} (c : IO A) (k : A -> IO B) : IO B :=
  fun t =>
    match c t with
    | (Ok a, t') => k a t'
    | (Err e, t') => (Err e, t')
    end.

Definition lift {A} (r : result A) : IO A := fun t => (r, t).

(** [try: c  except Exception: h]. *)
Definition try_except {A} (c : IO A) (h : exn -> IO A) : IO A :=
  fun t =>
    match c t with
    | (Ok a, t') => (Ok a, t')
    | (Err e, t') => h e t'
    end.

Definition bind_result {A B} (r : result A) (k : A -> result B) : result B :=
  match r with
  | Ok a => k a
  | Err e => Err e
  end.

Notation "x <- c ;; k" := (bind c (fun x => k))
  (at level 61, c at next level, right associativity).
Notation "x <~ c ;; k" := (bind_result c (fun x => k))
  (at level 61, c at next level, right associativity).

Definition json (r : Response) : result value :=
  match body r with
  | Some v => Ok v
  | None => Err JSONDecodeError
  end.

Definition sleep (seconds : Z) : IO unit :=
  fun t => (Ok tt, (t ++ [Slept seconds])%list).

Definition nl : string := String "010"%char EmptyString.

(** ** The program *)

Section Program.

Variable cfg : Config.
Variable clock : Clock.
Variable env : Env.

Definition user : string := str (of_env (GITHUB_USER cfg)).

Definition HEADERS : list (string * string) :=
  [ ("Authorization", "Bearer " ++ str (of_env (GITHUB_TOKEN cfg)));
    ("Accept", "application/vnd.github+json");
    ("User-Agent", "tds-bot/" ++ user) ].

(** One call to the network: the environment's answer is recorded, and an
    exception it raises propagates. *)
Definition perform (c : call) : IO Response :=
  fun t =>
    let o := env t c in
    (match o with Returns r => Ok r | Raises e => Err e end,
     (t ++ [Called c o])%list).

Definition gh_request (method url : string) (json : option value) : IO Response :=
  perform (Request method url HEADERS json).

(** The loop of [create_repo] over [errors]: [true] when it returns from the
    function at a matching message. *)
Fixpoint scan_errors (errors : list value) : result bool :=
  match errors with
  | [] => Ok false
  | e :: rest =>
      m <~ get e "message" (VStr EmptyString) ;;
      s <~ lower m ;;
      if contains "already exists" s then Ok true else scan_errors rest
  end.

Definition create_repo (repo_name : string) : IO bool :=
  let url := "https://api.github.com/user/repos" in
  let payload :=
    VDict [ ("name", VStr repo_name); ("private", VBool false);
            ("auto_init", VBool true); ("license_template", VStr "mit") ] in
  r <- gh_request "POST" url (Some payload) ;;
  if status_code r =? 201 then ret true
  else
    exists_ <-
      (if status_code r =? 422
       then try_except
              (lift (body <~ json r ;;
                     errors <~ get body "errors" (VList []) ;;
                     es <~ iter errors ;;
                     scan_errors es))
              (fun _ => ret false)
       else ret false) ;;
    if exists_ then ret true else ret false.

(** [data.get("commit", {}).get("sha") or data.get("content", {}).get("sha")]. *)
Definition commit_or_content_sha (data : value) : result value :=
  commit <~ get data "commit" (VDict []) ;;
  sha <~ get commit "sha" VNone ;;
  if truthy sha then Ok sha
  else
    content <~ get data "content" (VDict []) ;;
    get content "sha" VNone.

Definition contents_url (repo_name filename : string) : string :=
  "https://api.github.com/repos/" ++ user ++ "/" ++ repo_name ++ "/contents/" ++ filename.

Definition put_payload (filename content : string) : list (string * value) :=
  [ ("message", VStr ("Add or update " ++ filename));
    ("content", VStr (b64encode content)) ].

Definition push_file (repo_name filename content : string) : IO (bool * value) :=
  let url := contents_url repo_name filename in
  let payload := put_payload filename content in
  r <- gh_request "PUT" url (Some (VDict payload)) ;;
  if (status_code r =? 200) || (status_code r =? 201) then
    try_except
      (lift (data <~ json r ;;
             sha <~ commit_or_content_sha data ;;
             Ok (true, sha)))
      (fun _ => ret (true, VNone))
  else if status_code r =? 422 then
    get_r <- gh_request "GET" url None ;;
    if status_code get_r =? 200 then
      sha <- lift (found <~ json get_r ;; get found "sha" VNone) ;;
      if truthy sha then
        let payload := dict_set "sha" sha payload in
        r2 <- gh_request "PUT" url (Some (VDict payload)) ;;
        if (status_code r2 =? 200) || (status_code r2 =? 201) then
          sha <- lift (data <~ json r2 ;; commit_or_content_sha data) ;;
          ret (true, sha)
        else ret (false, VNone)
      else ret (false, VNone)
    else ret (false, VNone)
  else ret (false, VNone).

Definition pages_payload : value :=
  VDict [ ("build_type", VStr "legacy");
          ("source", VDict [("branch", VStr "main"); ("path", VStr "/")]) ].

Definition enable_pages (repo_name : string) : IO bool :=
  let url := "https://api.github.com/repos/" ++ user ++ "/" ++ repo_name ++ "/pages" in
  r <- gh_request "POST" url (Some pages_payload) ;;
  ret ((status_code r =? 201) || (status_code r =? 204)).

Definition delays : list Z := [2; 4; 8; 16].

(** One round of the loop of [notify_evaluator] per delay; the [try] block
    yields [true] when it returns from the function. *)
Fixpoint notify_rounds (evaluation_url payload : value) (ds : list Z) : IO bool :=
  match ds with
  | [] => ret false
  | delay :: rest =>
      done <-
        try_except
          (r <- perform (Post evaluation_url payload 10) ;;
           ret ((200 <=? status_code r) && (status_code r <? 300)))
          (fun _ => ret false) ;;
      if done then ret true
      else
        _ <- sleep delay ;;
        notify_rounds evaluation_url payload rest
  end.

Definition notify_evaluator (evaluation_url payload : value) (max_retries : Z) : IO bool :=
  notify_rounds evaluation_url payload delays.

Definition error_response (reason : string) : value :=
  VDict [("status", VStr "error"); ("reason", VStr reason)].

Definition repo_name_of (task_id : value) : string :=
  "tds_" ++ str task_id ++ "_" ++ decimal (time_time clock mod 10000).

Definition html_content (repo_name : string) : string :=
  nl ++ "    <!DOCTYPE html>" ++ nl ++
  "    <html><head><meta charset='utf-8'><title>" ++ repo_name ++ "</title></head>" ++ nl ++
  "    <body><h1>Hello from " ++ repo_name ++
  "</h1><p>Auto-deployed with FastAPI.</p></body></html>" ++ nl ++ "    ".

Definition readme (repo_name : string) (task_id : value) : string :=
  "# " ++ repo_name ++ nl ++ nl ++ "Auto-created for task " ++ str task_id ++ ".".

Definition mit_license : string :=
  "MIT License" ++ nl ++ nl ++
  "Copyright (c) " ++ decimal (tm_year clock) ++ " " ++ user ++ nl ++ nl ++
  "Permission is hereby granted, free of charge, to any person obtaining a copy" ++ nl ++
  "of this software and associated documentation files (the " ++ dq ++ "Software" ++ dq ++
  "), to deal" ++ nl ++
  "in the Software without restriction, including without limitation the rights" ++ nl ++
  "to use, copy, modify, merge, publish, distribute, sublicense, and/or sell" ++ nl ++
  "copies of the Software, and to permit persons to whom the Software is" ++ nl ++
  "furnished to do so, subject to the following conditions:" ++ nl.

Definition repo_url (repo_name : string) : string :=
  "https://github.com/" ++ user ++ "/" ++ repo_name.

Definition pages_url_of (repo_name : string) : string :=
  "https://" ++ user ++ ".github.io/" ++ repo_name ++ "/".

Definition success_response (repo_name : string) (commit : value) : value :=
  VDict [ ("status", VStr "success");
          ("repo", VStr (repo_url repo_name));
          ("pages_url", VStr (pages_url_of repo_name));
          ("commit", commit) ].

(** [data] is the parsed body of the inbound request. *)
Definition handle (data : value) : IO value :=
  secret <- lift (get data "secret" VNone) ;;
  if ne_env secret (SECRET cfg) then ret (error_response "Invalid secret")
  else
    task_id <- lift (get data "task" (VStr "demo_task")) ;;
    let repo_name := repo_name_of task_id in
    created <- create_repo repo_name ;;
    if negb created then ret (error_response "Failed to create repo")
    else
      pushed <- push_file repo_name "index.html" (html_content repo_name) ;;
      let (ok, sha_html) := pushed : bool * value in
      if negb ok then ret (error_response "Failed to push index.html")
      else
        pushed <- push_file repo_name "README.md" (readme repo_name task_id) ;;
        let (ok, sha_readme) := pushed : bool * value in
        if negb ok then ret (error_response "Failed to push README.md")
        else
          _ <- push_file repo_name "LICENSE" mit_license ;;
          _ <- enable_pages repo_name ;;
          let pages_url := pages_url_of repo_name in
          email <- lift (get data "email" VNone) ;;
          let commit := or_ sha_html sha_readme in
          let payload :=
            VDict [ ("email", email); ("task", task_id);
                    ("repo", VStr (repo_url repo_name));
                    ("pages_url", VStr pages_url); ("commit", commit) ] in
          evaluation_url <- lift (get data "evaluation_url" VNone) ;;
          _ <- (if truthy evaluation_url
                then _ <- notify_evaluator evaluation_url payload 4 ;; ret tt
                else ret tt) ;;
          ret (success_response repo_name commit).

End Program.

(** ** Vocabulary of the properties *)

(** A computation only ever appends to the trace. *)
Definition appends {A} (c : IO A) : Prop :=
  forall t, exists s, snd (c t) = (t ++ s)%list.

(** A computation never returns the value [v]. *)
Definition avoids {A} (v : A) (c : IO A) : Prop :=
  forall t, fst (c t) <> Ok v.

(** The calls the program makes to the platform. *)
Definition creation_call (cfg : Config) (repo_name : string) : call :=
  Request "POST" "https://api.github.com/user/repos" (HEADERS cfg)
    (Some (VDict [ ("name", VStr repo_name); ("private", VBool false);
                   ("auto_init", VBool true); ("license_template", VStr "mit") ])).

Definition put_call (cfg : Config) (repo_name filename content : string) : call :=
  Request "PUT" (contents_url cfg repo_name filename) (HEADERS cfg)
    (Some (VDict (put_payload filename content))).

Definition get_call (cfg : Config) (repo_name filename : string) : call :=
  Request "GET" (contents_url cfg repo_name filename) (HEADERS cfg) None.

Definition retry_call (cfg : Config) (repo_name filename content : string) (sha : value) : call :=
  Request "PUT" (contents_url cfg repo_name filename) (HEADERS cfg)
    (Some (VDict [ ("message", VStr ("Add or update " ++ filename));
                   ("content", VStr (b64encode content));
                   ("sha", sha) ])).

Definition pages_call (cfg : Config) (repo_name : string) : call :=
  Request "POST"
    ("https://api.github.com/repos/" ++ user cfg ++ "/" ++ repo_name ++ "/pages")
    (HEADERS cfg) (Some pages_payload).

(** [data.get("task", "demo_task")] on a dict. *)
Definition task_of (d : list (string * value)) : value :=
  match lookup "task" d with
  | Some task => task
  | None => VStr "demo_task"
  end.

(** An attempt of the notifier fails when the call raises or answers outside
    200..299. *)
Definition failed (o : outcome) : bool :=
  match o with
  | Returns r => negb ((200 <=? status_code r) && (status_code r <? 300))
  | Raises _ => true
  end.

(** Failed attempts, each followed by its delay. *)
Fixpoint rounds (c : call) (outs : list outcome) (ds : list Z) : list event :=
  match outs, ds with
  | o :: outs', d :: ds' => Called c o :: Slept d :: rounds c outs' ds'
  | _, _ => []
  end.

(** The number of POSTs to an evaluator in a trace. *)
Fixpoint posts (t : list event) : nat :=
  match t with
  | Called (Post _ _ _) _ :: t' => S (posts t')
  | _ :: t' => posts t'
  | [] => O
  end.

(** The error list of a response: the list under [errors] of a body that is
    an object. *)
Definition error_list (r : Response) : option (list value) :=
  match body r with
  | Some (VDict d) =>
      match lookup "errors" d with
      | Some (VList errs) => Some errs
      | _ => None
      end
  | _ => None
  end.

(** An entry whose message contains the words, in any letter case. *)
Definition says_already_exists (e : value) : bool :=
  match e with
  | VDict d =>
      match lookup "message" d with
      | Some (VStr m) => contains "already exists" (lower_string m)
      | _ => false
      end
  | _ => false
  end.

(** A structured entry: an object whose message, when it has one, is a string. *)
Definition error_entry (e : value) : bool :=
  match e with
  | VDict d =>
      match lookup "message" d with
      | Some (VStr _) | None => true
      | Some _ => false
      end
  | _ => false
  end.

(** The responses the specification counts as a created repository. *)
Definition accepted (r : Response) : bool :=
  (status_code r =? 201)
  || ((status_code r =? 422)
      && match error_list r with
         | Some errs => existsb says_already_exists errs
         | None => false
         end).

(** What the [try] block of [create_repo] computes from a 422 response. *)
Definition inspect_errors (r : Response) : result bool :=
  body <~ json r ;;
  errors <~ get body "errors" (VList []) ;;
  es <~ iter errors ;;
  scan_errors es.

(** [get_r.json().get("sha")]. *)
Definition fetched_sha (g : Response) : result value :=
  found <~ json g ;; get found "sha" VNone.

(** [data.get("secret")] on a dict, and the check the handler makes of it. *)
Definition secret_of (d : list (string * value)) : value :=
  match lookup "secret" d with
  | Some secret => secret
  | None => VNone
  end.

Definition passes_validation (cfg : Config) (d : list (string * value)) : bool :=
  negb (ne_env (secret_of d) (SECRET cfg)).

(** Two environments that answer the platform's calls alike; they may differ
    on the evaluator. *)
Definition same_platform (env1 env2 : Env) : Prop :=
  forall h method url headers json,
    env1 h (Request method url headers json) = env2 h (Request method url headers json).

(** ** Sample data *)

Module Sample.

Definition cfg : Config := mkConfig (Some "tok") (Some "alice") (Some "s1").
Definition unset : Config := mkConfig None None None.
Definition clock : Clock := mkClock 1700012345 2025.

Definition commit_body (sha : string) : option value :=
  Some (VDict [("commit", VDict [("sha", VStr sha)])]).

(** Every call to the platform is answered 201 with a commit sha; the
    evaluator answers 200. *)
Definition all_fine : Env :=
  fun _ c =>
    match c with
    | Request _ _ _ _ => Returns (mkResponse 201 (commit_body "abc123"))
    | Post _ _ _ => Returns (mkResponse 200 None)
    end.

(** As [all_fine], with an evaluator that cannot be reached. *)
Definition evaluator_down : Env :=
  fun _ c =>
    match c with
    | Request _ _ _ _ => Returns (mkResponse 201 (commit_body "abc123"))
    | Post _ _ _ => Raises RequestException
    end.

Definition request : value :=
  VDict [ ("secret", VStr "s1"); ("task", VStr "demo");
          ("email", VStr "a@b.c"); ("evaluation_url", VStr "http://eval.test/") ].

Definition name : string := "tds_demo_2345".

(** The platform answers everything 201 with a commit sha, except that the
    connection drops when the license is pushed. *)
Definition license_down : Env :=
  fun _ c =>
    match c with
    | Request "PUT" url _ _ =>
        if String.eqb url (contents_url cfg name "LICENSE")
        then Raises RequestException
        else Returns (mkResponse 201 (commit_body "abc123"))
    | Request _ _ _ _ => Returns (mkResponse 201 (commit_body "abc123"))
    | Post _ _ _ => Returns (mkResponse 200 None)
    end.


(** Every call is answered 201 with a body that is not JSON. *)
Definition no_json : Env :=
  fun _ _ => Returns (mkResponse 201 None).

(** The file exists already and cannot be read back: the first PUT is
    answered 422 and the GET 404. *)
Definition unreadable : Env :=
  fun h c =>
    match c with
    | Request "PUT" _ _ _ => Returns (mkResponse 422 None)
    | Request _ _ _ _ => Returns (mkResponse 404 None)
    | Post _ _ _ => Raises RequestException
    end.

(** The file exists already: a PUT without sha is answered 422, the GET gives
    the sha, and the PUT that carries it is answered 409. *)
Definition stale : Env :=
  fun h c =>
    match c with
    | Request "GET" _ _ _ => Returns (mkResponse 200 (Some (VDict [("sha", VStr "0ld")])))
    | Request _ _ _ (Some (VDict [_; _])) => Returns (mkResponse 422 None)
    | Request _ _ _ _ => Returns (mkResponse 409 None)
    | Post _ _ _ => Raises RequestException
    end.

(** The repository exists already. *)
Definition exists_already : Env :=
  fun h c =>
    Returns (mkResponse 422
               (Some (VDict [ ("message", VStr "Repository creation failed.");
                              ("errors", VList [ VDict [ ("resource", VStr "Repository");
                                                         ("code", VStr "custom");
                                                         ("field", VStr "name");
                                                         ("message", VStr "name already exists on this account") ] ]) ]))).

End Sample.

(** ** Vocabulary of the further properties *)

(** [data.get("evaluation_url")] and [data.get("email")] on a dict. *)
Definition evaluation_url_of (d : list (string * value)) : value :=
  match lookup "evaluation_url" d with
  | Some url => url
  | None => VNone
  end.

Definition email_of (d : list (string * value)) : value :=
  match lookup "email" d with
  | Some email => email
  | None => VNone
  end.

(** The payload the handler sends to the evaluator. *)
Definition notification (cfg : Config) (d : list (string * value)) (name : string)
           (commit : value) : value :=
  VDict [ ("email", email_of d); ("task", task_of d);
          ("repo", VStr (repo_url cfg name));
          ("pages_url", VStr (pages_url_of cfg name)); ("commit", commit) ].

(** A call to the platform: it goes to api.github.com and carries [HEADERS]. *)
Definition platform_event (cfg : Config) (ev : event) : Prop :=
  match ev with
  | Called (Request _ url headers _) _ =>
      headers = HEADERS cfg /\ String.prefix "https://api.github.com/" url = true
  | _ => False
  end.

(** What the notifier does for the address [url]: a POST to it with a timeout
    of 10 seconds, or a sleep of one of the delays. *)
Definition notifier_event (url : value) (ev : event) : Prop :=
  match ev with
  | Called (Post to _ timeout) _ => to = url /\ timeout = 10
  | Slept seconds => In seconds delays
  | _ => False
  end.

(** A computation appends at most [n] events, all of them satisfying [P]. *)
Definition emits {A} (P : event -> Prop) (n : nat) (c : IO A) : Prop :=
  forall t, exists s,
    snd (c t) = (t ++ s)%list /\ Forall P s /\ (length s <= n)%nat.

(** The seconds slept in a trace. *)
Fixpoint slept (t : list event) : Z :=
  match t with
  | Slept seconds :: t' => seconds + slept t'
  | _ :: t' => slept t'
  | [] => 0
  end.

(** More environments the properties are tried on. *)
Module Cases.

(** The platform refuses to create the repository. *)
Definition forbidden : Env :=
  fun _ _ => Returns (mkResponse 403 None).

(** The repository is created; every later call is answered 500. *)
Definition created_only : Env :=
  fun h _ =>
    match h with
    | [] => Returns (mkResponse 201 None)
    | _ => Returns (mkResponse 500 None)
    end.

(** The repository is created and index.html pushed; then every call is
    answered 500. *)
Definition index_only : Env :=
  fun h _ =>
    match h with
    | [] | [_] => Returns (mkResponse 201 (Sample.commit_body "abc123"))
    | _ => Returns (mkResponse 500 None)
    end.

(** The network is down. *)
Definition offline : Env :=
  fun _ _ => Raises RequestException.

(** The platform answers the first four calls 201 with a commit sha, and the
    connection drops on the fifth, the hosting call. *)
Definition hosting_down : Env :=
  fun h _ =>
    match h with
    | [] | [_] | [_; _] | [_; _; _] =>
        Returns (mkResponse 201 (Sample.commit_body "abc123"))
    | _ => Raises RequestException
    end.

(** The file exists: the first PUT is answered 422, the GET gives the sha, and
    the PUT that carries it is answered 200 with the new commit. *)
Definition updated : Env :=
  fun h _ =>
    match h with
    | [] => Returns (mkResponse 422 None)
    | [_] => Returns (mkResponse 200 (Some (VDict [("sha", VStr "0ld")])))
    | _ => Returns (mkResponse 200 (Sample.commit_body "n3w"))
    end.

(** As [updated], but the answers to the GET and to the second PUT are not
    JSON. *)
Definition updated_garbled_get : Env :=
  fun h _ =>
    match h with
    | [] => Returns (mkResponse 422 None)
    | _ => Returns (mkResponse 200 None)
    end.

Definition updated_garbled_put : Env :=
  fun h _ =>
    match h with
    | [] => Returns (mkResponse 422 None)
    | [_] => Returns (mkResponse 200 (Some (VDict [("sha", VStr "0ld")])))
    | _ => Returns (mkResponse 201 None)
    end.

(** A 422 whose error list has an entry without a readable message before the
    one that says the repository exists. *)
Definition odd_errors : Response :=
  mkResponse 422
    (Some (VDict [ ("errors", VList [ VDict [("message", VNone)];
                                      VDict [("message", VStr "name already exists")] ]) ])).

Definition odd : Env := fun _ _ => Returns odd_errors.

Definition without_url : value :=
  VDict [ ("secret", VStr "s1"); ("task", VStr "demo") ].

End Cases.

(** Every result of a computation satisfies [Q]. *)
Definition lands {A} (Q : result A -> Prop) (c : IO A) : Prop :=
  forall t, Q (fst (c t)).

(** The answers the handler can give: an error with one of four reasons, or a
    success naming a repository and a commit. *)
Definition answer (cfg : Config) (r : result value) : Prop :=
  match r with
  | Err _ => True
  | Ok response =>
      (exists reason,
          In reason [ "Invalid secret"; "Failed to create repo";
                      "Failed to push index.html"; "Failed to push README.md" ]
          /\ response = VDict [("status", VStr "error"); ("reason", VStr reason)])
      \/ (exists name commit,
             response = VDict [ ("status", VStr "success");
                                ("repo", VStr (repo_url cfg name));
                                ("pages_url", VStr (pages_url_of cfg name));
                                ("commit", commit) ])
  end.

(** ** Reading answers *)

(** The sha of the file in the object a GET answers with, [None] when it has
    none: [found.get("sha")]. *)
Definition sha_in (d : list (string * value)) : value :=
  match lookup "sha" d with
  | Some sha => sha
  | None => VNone
  end.

(** Reading an error list in order, an entry that says the repository exists
    is reached before any entry that is not structured. *)
Fixpoint reaches_already_exists (errs : list value) : bool :=
  match errs with
  | [] => false
  | e :: rest =>
      says_already_exists e || (error_entry e && reaches_already_exists rest)
  end.

(** The answers to the creation call that [create_repo] takes for a created
    repository: a 201, or a 422 whose error list reaches such an entry. *)
Definition admitted (r : Response) : bool :=
  (status_code r =? 201)
  || ((status_code r =? 422)
      && match error_list r with
         | Some errs => reaches_already_exists errs
         | None => false
         end).

Module Runs.

(** An evaluator that answers 503 twice and 200 from then on: an answer
    depends on how much has happened. *)
Definition third_time : Env :=
  fun h _ =>
    match h with
    | [] | [_] | [_; _] | [_; _; _] => Returns (mkResponse 503 None)
    | _ => Returns (mkResponse 200 None)
    end.


End Runs.

(** * Properties *)

(** ** The Python helpers on known values *)

Example b64encode_padding :
  b64encode "Man" = "TWFu" /\ b64encode "Ma" = "TWE=" /\ b64encode "M" = "TQ==".
Proof. repeat split. Qed.

Example b64encode_default_content :
  b64encode "<h1>Hello World</h1>" = "PGgxPkhlbGxvIFdvcmxkPC9oMT4=".
Proof. reflexivity. Qed.

Example str_of_values :
  str (VStr "demo") = "demo" /\ str VNone = "None" /\ str (VInt (-12)) = "-12"
  /\ str (VList [VInt 1; VStr "a"; VNone]) = "[1, 'a', None]".
Proof. repeat split. Qed.

Example lower_message :
  contains "already exists" (lower_string "Name Already EXISTS on this account") = true.
Proof. reflexivity. Qed.

Example repo_name_sample :
  repo_name_of Sample.clock (VStr "demo") = "tds_demo_2345".
Proof. reflexivity. Qed.

(** ** Running computations *)

Lemma bind_Ok {A B} (c : IO A) (k : A -> IO B) t a t' :
  c t = (Ok a, t') -> bind c k t = k a t'.
Proof. intros H. unfold bind. now rewrite H. Qed.

Lemma bind_Err {A B} (c : IO A) (k : A -> IO B) t e t' :
  c t = (Err e, t') -> bind c k t = (Err e, t').
Proof. intros H. unfold bind. now rewrite H. Qed.

Lemma appends_ret {A} (a : A) : appends (ret a).
Proof. intros t. exists []. simpl. now rewrite app_nil_r. Qed.

Lemma appends_lift {A} (r : result A) : appends (lift r).
Proof. intros t. exists []. simpl. now rewrite app_nil_r. Qed.

Lemma appends_bind {A B} (c : IO A) (k : A -> IO B) :
  appends c -> (forall a, appends (k a)) -> appends (bind c k).
Proof.
  intros Hc Hk t. unfold bind. destruct (Hc t) as [s Hs].
  destruct (c t) as [[a|e] t']; simpl in Hs; subst t'.
  - destruct (Hk a (t ++ s)%list) as [s' Hs']. exists (s ++ s')%list.
    now rewrite Hs', app_assoc.
  - now exists s.
Qed.

Lemma appends_try {A} (c : IO A) (h : exn -> IO A) :
  appends c -> (forall e, appends (h e)) -> appends (try_except c h).
Proof.
  intros Hc Hh t. unfold try_except. destruct (Hc t) as [s Hs].
  destruct (c t) as [[a|e] t']; simpl in Hs; subst t'.
  - now exists s.
  - destruct (Hh e (t ++ s)%list) as [s' Hs']. exists (s ++ s')%list.
    now rewrite Hs', app_assoc.
Qed.

Lemma appends_perform env c : appends (perform env c).
Proof. intros t. now exists [Called c (env t c)]. Qed.

Lemma appends_sleep d : appends (sleep d).
Proof. intros t. now exists [Slept d]. Qed.

Lemma appends_if {A} (b : bool) (c1 c2 : IO A) :
  appends c1 -> appends c2 -> appends (if b then c1 else c2).
Proof. now destruct b. Qed.

Ltac appends_tac :=
  repeat first
    [ apply appends_ret | apply appends_lift | apply appends_perform
    | apply appends_sleep
    | apply appends_bind; [ | intros ? ]
    | apply appends_try; [ | intros ? ]
    | apply appends_if
    | match goal with |- appends (let (_, _) := ?p in _) => destruct p end ].

Lemma appends_create_repo cfg env name : appends (create_repo cfg env name).
Proof. unfold create_repo, gh_request. appends_tac. Qed.

Lemma appends_push_file cfg env name f c : appends (push_file cfg env name f c).
Proof. unfold push_file, gh_request. appends_tac. Qed.

Lemma appends_enable_pages cfg env name : appends (enable_pages cfg env name).
Proof. unfold enable_pages, gh_request. appends_tac. Qed.

Lemma appends_notify_rounds env url payload ds :
  appends (notify_rounds env url payload ds).
Proof. induction ds as [|d ds IH]; simpl; appends_tac. exact IH. Qed.

Lemma appends_notify_evaluator env url payload m :
  appends (notify_evaluator env url payload m).
Proof. apply appends_notify_rounds. Qed.

(** ** Secret validation *)

Lemma ne_env_false v s : ne_env v s = false <-> v = of_env s.
Proof.
  destruct v, s as [s|]; simpl; split; try discriminate; try reflexivity.
  - intros H. apply negb_false_iff, String.eqb_eq in H. now subst.
  - intros [= ->]. now rewrite String.eqb_refl.
Qed.

(** C1, as the code has it.  A request whose secret field differs from the
    configured shared secret, or is missing while a shared secret is
    configured, is answered with the invalid-secret error, and the trace is
    left as it was: no outbound call is made and nothing sleeps.  The
    configured secret is [None] when the variable is unset. *)
Theorem handle_invalid_secret cfg clock env d t :
  ((exists v, lookup "secret" d = Some v /\ v <> of_env (SECRET cfg))
   \/ (lookup "secret" d = None /\ SECRET cfg <> None)) ->
  handle cfg clock env (VDict d) t
  = (Ok (VDict [("status", VStr "error"); ("reason", VStr "Invalid secret")]), t).
Proof.
  intros H. unfold handle, bind, lift, get.
  destruct H as [(v & Hl & Hv) | (Hl & Hs)]; rewrite Hl.
  - destruct (ne_env v (SECRET cfg)) eqn:E; [ reflexivity | ].
    apply ne_env_false in E. contradiction.
  - destruct (SECRET cfg); [ reflexivity | congruence ].
Qed.

Lemma handle_invalid_secret_witness :
  handle Sample.cfg Sample.clock Sample.all_fine (VDict [("secret", VStr "s2")]) []
  = (Ok (VDict [("status", VStr "error"); ("reason", VStr "Invalid secret")]), [])
  /\ handle Sample.cfg Sample.clock Sample.all_fine (VDict [("task", VStr "demo")]) []
     = (Ok (VDict [("status", VStr "error"); ("reason", VStr "Invalid secret")]), [])
  /\ handle Sample.unset Sample.clock Sample.all_fine (VDict [("secret", VStr "s2")]) []
     = (Ok (VDict [("status", VStr "error"); ("reason", VStr "Invalid secret")]), []).
Proof.
  split; [ | split ].
  - apply (handle_invalid_secret Sample.cfg Sample.clock Sample.all_fine
             [("secret", VStr "s2")] []).
    left. exists (VStr "s2"). split; [ reflexivity | discriminate ].
  - apply (handle_invalid_secret Sample.cfg Sample.clock Sample.all_fine
             [("task", VStr "demo")] []).
    right. split; [ reflexivity | discriminate ].
  - apply (handle_invalid_secret Sample.unset Sample.clock Sample.all_fine
             [("secret", VStr "s2")] []).
    left. exists (VStr "s2"). split; [ reflexivity | discriminate ].
Defined.

(** C1 as stated fails: with no shared secret configured, a request without a
    secret field is not refused; the repository is created, the three files
    are pushed and hosting is enabled, and the answer is success. *)
Lemma handle_missing_secret_accepted :
  SECRET Sample.unset = None
  /\ lookup "secret" [("task", VStr "demo")] = None
  /\ fst (handle Sample.unset Sample.clock Sample.all_fine
            (VDict [("task", VStr "demo")]) [])
     = Ok (VDict [ ("status", VStr "success");
                   ("repo", VStr "https://github.com/None/tds_demo_2345");
                   ("pages_url", VStr "https://None.github.io/tds_demo_2345/");
                   ("commit", VStr "abc123") ])
  /\ length (snd (handle Sample.unset Sample.clock Sample.all_fine
                    (VDict [("task", VStr "demo")]) [])) = 5%nat.
Proof. repeat split. Qed.

Lemma create_repo_trace cfg env name t :
  snd (create_repo cfg env name t)
  = (t ++ [Called (creation_call cfg name) (env t (creation_call cfg name))])%list.
Proof.
  unfold create_repo, gh_request, bind, perform. fold (creation_call cfg name).
  destruct (env t (creation_call cfg name)) as [r|e]; [ | reflexivity ].
  destruct (status_code r =? 201); [ reflexivity | ].
  destruct (status_code r =? 422); [ | reflexivity ].
  unfold try_except, lift. fold (inspect_errors r).
  destruct (inspect_errors r) as [[|]|]; reflexivity.
Qed.

Lemma avoids_ret {A} (v a : A) : a <> v -> avoids v (ret a).
Proof. intros H t. simpl. congruence. Qed.

Lemma avoids_bind {A B} (v : B) (c : IO A) (k : A -> IO B) :
  (forall a, avoids v (k a)) -> avoids v (bind c k).
Proof.
  intros Hk t. unfold bind. destruct (c t) as [[a|e] t'].
  - apply Hk.
  - simpl. discriminate.
Qed.

Ltac avoids_tac :=
  repeat first
    [ apply avoids_ret; discriminate
    | apply avoids_bind; intros ?
    | match goal with
      | |- avoids _ (if ?b then _ else _) => destruct b
      | |- avoids _ (let (_, _) := ?p in _) => destruct p
      end ].

(** The first event of a sequence, and a value its result cannot be. *)
Lemma bind_first {A B} (c : IO A) (k : A -> IO B) ev (v : B) :
  snd (c []) = [ev] ->
  (forall a, appends (k a)) ->
  (forall a, avoids v (k a)) ->
  exists res rest, bind c k [] = (res, ev :: rest) /\ res <> Ok v.
Proof.
  intros Hc Ha Hv. unfold bind.
  destruct (c []) as [[a|e] t'] eqn:E; simpl in Hc; subst t'.
  - destruct (Ha a [ev]) as [s Hs]. specialize (Hv a [ev]).
    destruct (k a [ev]) as [res t']. simpl in *. subst t'.
    exists res, s. now split.
  - exists (Err e), []. split; [ reflexivity | discriminate ].
Qed.

(** C8. With the shared secret unset, a request without a secret field passes
    validation: the handler goes on to provisioning, its first outbound call
    being the creation of the repository, and whatever it answers is not the
    invalid-secret error. *)
Theorem handle_unset_secret cfg clock env d :
  SECRET cfg = None ->
  lookup "secret" d = None ->
  exists res rest,
    handle cfg clock env (VDict d) []
    = (res,
       Called (creation_call cfg (repo_name_of clock (task_of d)))
              (env [] (creation_call cfg (repo_name_of clock (task_of d))))
         :: rest)
    /\ res <> Ok (VDict [("status", VStr "error"); ("reason", VStr "Invalid secret")]).
Proof.
  intros HS Hd. unfold handle.
  unfold bind at 1, lift at 1, get at 1. rewrite Hd, HS. simpl ne_env. cbv iota.
  unfold bind at 1, lift at 1, get at 1. fold (task_of d).
  apply bind_first.
  - now rewrite create_repo_trace.
  - intros a. appends_tac;
      auto using appends_push_file, appends_enable_pages, appends_notify_evaluator.
  - intros a. avoids_tac.
Qed.

Lemma handle_unset_secret_witness :
  exists res rest,
    handle Sample.unset Sample.clock Sample.all_fine (VDict [("task", VStr "demo")]) []
    = (res,
       Called (creation_call Sample.unset "tds_demo_2345")
              (Returns (mkResponse 201 (Sample.commit_body "abc123"))) :: rest)
    /\ res <> Ok (VDict [("status", VStr "error"); ("reason", VStr "Invalid secret")]).
Proof.
  apply (handle_unset_secret Sample.unset Sample.clock Sample.all_fine
           [("task", VStr "demo")]); reflexivity.
Defined.

(** ** The notifier *)

Lemma notify_round_failed env url payload d ds t :
  failed (env t (Post url payload 10)) = true ->
  notify_rounds env url payload (d :: ds) t
  = notify_rounds env url payload ds
      (t ++ [Called (Post url payload 10) (env t (Post url payload 10)); Slept d])%list.
Proof.
  intros H. simpl. unfold bind, try_except, perform, sleep.
  destruct (env t (Post url payload 10)) as [r|e]; simpl in *.
  - apply negb_true_iff in H. rewrite H. now rewrite <- app_assoc.
  - now rewrite <- app_assoc.
Qed.

Lemma notify_round_passed env url payload d ds t :
  failed (env t (Post url payload 10)) = false ->
  notify_rounds env url payload (d :: ds) t
  = (Ok true, (t ++ [Called (Post url payload 10) (env t (Post url payload 10))])%list).
Proof.
  intros H. simpl. unfold bind, try_except, perform.
  destruct (env t (Post url payload 10)) as [r|e]; simpl in *; [ | discriminate ].
  apply negb_false_iff in H. now rewrite H.
Qed.

Lemma failed_false o :
  failed o = false -> exists r, o = Returns r /\ 200 <= status_code r < 300.
Proof.
  destruct o as [r|e]; simpl; [ | discriminate ].
  intros H. apply negb_false_iff, andb_true_iff in H. exists r. split; [ reflexivity | lia ].
Qed.

(** The shape of every run of the loop over a list of delays. *)
Lemma notify_rounds_shape env url payload ds : forall t,
  exists outs,
    forallb failed outs = true /\
    ((length outs = length ds /\
      notify_rounds env url payload ds t
      = (Ok false, (t ++ rounds (Post url payload 10) outs ds)%list))
     \/
     (exists r, (length outs < length ds)%nat /\ 200 <= status_code r < 300 /\
      notify_rounds env url payload ds t
      = (Ok true, (t ++ rounds (Post url payload 10) outs ds
                     ++ [Called (Post url payload 10) (Returns r)])%list))).
Proof.
  induction ds as [|d ds IH]; intros t.
  - exists []. split; [ reflexivity | left ]. split; [ reflexivity | ].
    simpl. now rewrite app_nil_r.
  - destruct (failed (env t (Post url payload 10))) eqn:F.
    + rewrite (notify_round_failed _ _ _ _ _ _ F).
      destruct (IH (t ++ [Called (Post url payload 10) (env t (Post url payload 10)); Slept d])%list)
        as (outs & Hf & [(Hl & Hr) | (r & Hl & Hs & Hr)]).
      * exists (env t (Post url payload 10) :: outs). split; [ simpl; now rewrite F | left ].
        split; [ simpl; now rewrite Hl | ].
        rewrite Hr. simpl. now rewrite <- app_assoc.
      * exists (env t (Post url payload 10) :: outs). split; [ simpl; now rewrite F | right ].
        exists r. split; [ simpl; lia | split; [ exact Hs | ] ].
        rewrite Hr. simpl. now rewrite <- app_assoc.
    + rewrite (notify_round_passed _ _ _ _ _ _ F).
      destruct (failed_false _ F) as (r & -> & Hs).
      exists []. split; [ reflexivity | right ]. exists r.
      split; [ simpl; lia | split; [ exact Hs | reflexivity ] ].
Qed.

(** When no attempt can succeed, the loop runs through all its delays. *)
Lemma notify_rounds_all_failed env url payload ds : forall t,
  (forall h, failed (env h (Post url payload 10)) = true) ->
  exists outs,
    length outs = length ds /\ forallb failed outs = true /\
    notify_rounds env url payload ds t
    = (Ok false, (t ++ rounds (Post url payload 10) outs ds)%list).
Proof.
  intros t H. revert t. induction ds as [|d ds IH]; intros t.
  - exists []. repeat split. simpl. now rewrite app_nil_r.
  - rewrite (notify_round_failed _ _ _ _ _ _ (H t)).
    destruct (IH (t ++ [Called (Post url payload 10) (env t (Post url payload 10)); Slept d])%list)
      as (outs & Hl & Hf & Hr).
    exists (env t (Post url payload 10) :: outs). repeat split.
    + simpl. now rewrite Hl.
    + simpl. now rewrite H.
    + rewrite Hr. simpl. now rewrite <- app_assoc.
Qed.

(** The notifier never raises. *)
Lemma notify_evaluator_returns env url payload m t :
  exists b t', notify_evaluator env url payload m t = (Ok b, t').
Proof.
  destruct (notify_rounds_shape env url payload delays t)
    as (outs & _ & [(_ & Hr) | (r & _ & _ & Hr)]); eauto.
Qed.

(** C2. The notifier asks the environment up to four times, each time with
    everything that happened before.  An attempt that fails, by an exception
    or a status outside 200..299, is followed by its delay, 2, 4, 8 and 16
    seconds in turn, the fourth included; the first attempt that is answered
    in 200..299 ends the run with true and nothing after it; four failed
    attempts end it with false. *)
Theorem notify_evaluator_schedule env url payload max_retries t :
  let post := Post url payload 10 in
  let answer1 := env t post in
  let t1 := (t ++ [Called post answer1; Slept 2])%list in
  let answer2 := env t1 post in
  let t2 := (t1 ++ [Called post answer2; Slept 4])%list in
  let answer3 := env t2 post in
  let t3 := (t2 ++ [Called post answer3; Slept 8])%list in
  let answer4 := env t3 post in
  let t4 := (t3 ++ [Called post answer4; Slept 16])%list in
  notify_evaluator env url payload max_retries t
  = if failed answer1 then
      if failed answer2 then
        if failed answer3 then
          if failed answer4 then (Ok false, t4)
          else (Ok true, (t3 ++ [Called post answer4])%list)
        else (Ok true, (t2 ++ [Called post answer3])%list)
      else (Ok true, (t1 ++ [Called post answer2])%list)
    else (Ok true, (t ++ [Called post answer1])%list).
Proof.
  intros post answer1 t1 answer2 t2 answer3 t3 answer4 t4.
  unfold notify_evaluator, delays.
  destruct (failed answer1) eqn:F1;
    [ rewrite (notify_round_failed env url payload 2 [4; 8; 16] t F1)
    | exact (notify_round_passed env url payload 2 [4; 8; 16] t F1) ].
  change (notify_rounds env url payload [4; 8; 16] t1 = if failed answer2 then
      if failed answer3 then
        if failed answer4 then (Ok false, t4)
        else (Ok true, (t3 ++ [Called post answer4])%list)
      else (Ok true, (t2 ++ [Called post answer3])%list)
    else (Ok true, (t1 ++ [Called post answer2])%list)).
  destruct (failed answer2) eqn:F2;
    [ rewrite (notify_round_failed env url payload 4 [8; 16] t1 F2)
    | exact (notify_round_passed env url payload 4 [8; 16] t1 F2) ].
  change (notify_rounds env url payload [8; 16] t2 = if failed answer3 then
        if failed answer4 then (Ok false, t4)
        else (Ok true, (t3 ++ [Called post answer4])%list)
      else (Ok true, (t2 ++ [Called post answer3])%list)).
  destruct (failed answer3) eqn:F3;
    [ rewrite (notify_round_failed env url payload 8 [16] t2 F3)
    | exact (notify_round_passed env url payload 8 [16] t2 F3) ].
  change (notify_rounds env url payload [16] t3
          = if failed answer4 then (Ok false, t4)
            else (Ok true, (t3 ++ [Called post answer4])%list)).
  destruct (failed answer4) eqn:F4;
    [ rewrite (notify_round_failed env url payload 16 [] t3 F4)
    | exact (notify_round_passed env url payload 16 [] t3 F4) ].
  reflexivity.
Qed.

Lemma notify_evaluator_schedule_witness :
  notify_evaluator Sample.evaluator_down (VStr "http://eval.test/") VNone 4 []
  = (Ok false,
     [ Called (Post (VStr "http://eval.test/") VNone 10) (Raises RequestException); Slept 2;
       Called (Post (VStr "http://eval.test/") VNone 10) (Raises RequestException); Slept 4;
       Called (Post (VStr "http://eval.test/") VNone 10) (Raises RequestException); Slept 8;
       Called (Post (VStr "http://eval.test/") VNone 10) (Raises RequestException);
       Slept 16 ])
  /\ notify_evaluator Runs.third_time (VStr "http://eval.test/") VNone 4 []
     = (Ok true,
        [ Called (Post (VStr "http://eval.test/") VNone 10) (Returns (mkResponse 503 None));
          Slept 2;
          Called (Post (VStr "http://eval.test/") VNone 10) (Returns (mkResponse 503 None));
          Slept 4;
          Called (Post (VStr "http://eval.test/") VNone 10) (Returns (mkResponse 200 None)) ]).
Proof.
  split.
  - rewrite (notify_evaluator_schedule Sample.evaluator_down
               (VStr "http://eval.test/") VNone 4 []).
    reflexivity.
  - rewrite (notify_evaluator_schedule Runs.third_time
               (VStr "http://eval.test/") VNone 4 []).
    reflexivity.
Defined.

Lemma posts_app t s : posts (t ++ s) = (posts t + posts s)%nat.
Proof.
  induction t as [|[c o|d] t IH]; simpl; [ reflexivity | | exact IH ].
  destruct c; simpl; now rewrite IH.
Qed.

Lemma posts_rounds url payload outs : forall ds,
  posts (rounds (Post url payload 10) outs ds) = Nat.min (length outs) (length ds).
Proof.
  induction outs as [|o outs IH]; intros [|d ds]; simpl; try reflexivity.
  now rewrite IH.
Qed.

(** C9, as the code has it.  The notifier does the same whatever
    [max_retries] is given: the same result and the same trace.  Its attempts
    are bounded by the length of the delay list, which is 4; a run that ends
    in failure made exactly that many, a run that ends in success between one
    and that many. *)
Theorem notify_evaluator_ignores_max_retries env url payload m1 m2 t :
  notify_evaluator env url payload m1 t = notify_evaluator env url payload m2 t
  /\ length delays = 4%nat
  /\ exists s,
       snd (notify_evaluator env url payload m1 t) = (t ++ s)%list /\
       ((fst (notify_evaluator env url payload m1 t) = Ok false /\
         posts s = length delays)
        \/
        (fst (notify_evaluator env url payload m1 t) = Ok true /\
         (1 <= posts s <= length delays)%nat)).
Proof.
  split; [ reflexivity | split; [ reflexivity | ] ].
  unfold notify_evaluator.
  destruct (notify_rounds_shape env url payload delays t)
    as (outs & _ & [(Hl & Hr) | (r & Hl & _ & Hr)]); rewrite Hr; simpl fst; simpl snd.
  - eexists. split; [ reflexivity | left ]. split; [ reflexivity | ].
    rewrite posts_rounds, Hl. apply Nat.min_id.
  - eexists. split; [ reflexivity | right ]. split; [ reflexivity | ].
    rewrite posts_app, posts_rounds. simpl posts. lia.
Qed.

(** C9 as stated fails: an evaluator that answers the first POST 200 is
    contacted once, not four times, whatever [max_retries] is. *)
Lemma notify_evaluator_single_attempt :
  fst (notify_evaluator Sample.all_fine (VStr "http://eval.test/") VNone 4 []) = Ok true
  /\ posts (snd (notify_evaluator Sample.all_fine (VStr "http://eval.test/") VNone 4 []))
     = 1%nat
  /\ length delays = 4%nat.
Proof. repeat split. Qed.

(** ** Repository creation *)

Lemma scan_errors_sound errs :
  scan_errors errs = Ok true -> existsb says_already_exists errs = true.
Proof.
  induction errs as [|e errs IH]; simpl; [ discriminate | ].
  destruct e as [| | | | |l|d]; simpl; try discriminate.
  destruct (lookup "message" d) as [[| | | |m| |]|]; simpl; try discriminate.
  - destruct (contains "already exists" (lower_string m)); [ reflexivity | exact IH ].
  - exact IH.
Qed.

Lemma scan_chars s : scan_errors (chars s) <> Ok true.
Proof. destruct s; simpl; discriminate. Qed.

Lemma scan_keys (d : list (string * value)) :
  scan_errors (map (fun kv => VStr (fst kv)) d) <> Ok true.
Proof. destruct d; simpl; discriminate. Qed.

Lemma inspect_errors_sound r :
  inspect_errors r = Ok true ->
  exists errs, error_list r = Some errs /\ existsb says_already_exists errs = true.
Proof.
  unfold inspect_errors, error_list, json.
  destruct (body r) as [[| | | | |l|d]|]; simpl; try discriminate.
  destruct (lookup "errors" d) as [[| | | |s|l|d']|]; simpl; try discriminate.
  - intros H. now apply scan_chars in H.
  - intros H. exists l. split; [ reflexivity | now apply scan_errors_sound ].
  - intros H. now apply scan_keys in H.
Qed.

Lemma inspect_errors_none r :
  error_list r = None -> inspect_errors r <> Ok true.
Proof.
  intros H E. apply inspect_errors_sound in E. destruct E as (errs & E & _). congruence.
Qed.

Lemma create_repo_run cfg env name t r :
  env t (creation_call cfg name) = Returns r ->
  create_repo cfg env name t
  = (Ok ((status_code r =? 201)
         || ((status_code r =? 422)
             && match inspect_errors r with Ok true => true | _ => false end)),
     (t ++ [Called (creation_call cfg name) (Returns r)])%list).
Proof.
  intros H. unfold create_repo, gh_request, bind, perform.
  fold (creation_call cfg name). rewrite H.
  destruct (status_code r =? 201); [ reflexivity | ].
  destruct (status_code r =? 422); [ | reflexivity ].
  unfold try_except, lift. fold (inspect_errors r).
  destruct (inspect_errors r) as [[|]|]; reflexivity.
Qed.

Lemma inspect_errors_list r errs :
  error_list r = Some errs -> inspect_errors r = scan_errors errs.
Proof.
  unfold inspect_errors, error_list, json.
  destruct (body r) as [[| | | | |l|d]|]; simpl; try discriminate.
  destruct (lookup "errors" d) as [[| | | |s|l|d']|]; simpl; try discriminate.
  now intros [= ->].
Qed.

Lemma scan_errors_reaches errs :
  match scan_errors errs with Ok true => true | _ => false end
  = reaches_already_exists errs.
Proof.
  induction errs as [|e errs IH]; simpl; [ reflexivity | ].
  destruct e as [| | | | |l|d]; simpl; try reflexivity.
  destruct (lookup "message" d) as [[| | | |m| |]|]; simpl; try reflexivity.
  - destruct (contains "already exists" (lower_string m)); [ reflexivity | exact IH ].
  - exact IH.
Qed.

Lemma inspect_errors_reaches r :
  match inspect_errors r with Ok true => true | _ => false end
  = match error_list r with
    | Some errs => reaches_already_exists errs
    | None => false
    end.
Proof.
  destruct (error_list r) as [errs|] eqn:E.
  - rewrite (inspect_errors_list _ _ E). apply scan_errors_reaches.
  - pose proof (inspect_errors_none _ E) as N.
    destruct (inspect_errors r) as [[|]|]; congruence.
Qed.

Lemma reaches_structured errs :
  forallb error_entry errs = true ->
  reaches_already_exists errs = existsb says_already_exists errs.
Proof.
  induction errs as [|e errs IH]; simpl; [ reflexivity | ].
  intros H. apply andb_true_iff in H. destruct H as [He H].
  now rewrite He, (IH H).
Qed.

Lemma reaches_exists errs :
  reaches_already_exists errs = true -> existsb says_already_exists errs = true.
Proof.
  induction errs as [|e errs IH]; simpl; [ discriminate | ].
  destruct (says_already_exists e); [ reflexivity | ]. simpl.
  intros H. apply andb_true_iff in H. now apply IH.
Qed.

(** C4, as the code has it.  [create_repo] makes the creation call once and
    returns true exactly when the call is answered 201, or answered 422 with
    an object whose error list, read in order, reaches an entry whose message
    contains the words in any letter case before any entry that is not an
    object with a string or absent message; every other answer gives false,
    and an exception of the call propagates.  On a list of structured entries
    that is: when some message contains the words. *)
Theorem create_repo_accepts cfg env name t :
  create_repo cfg env name t
  = (match env t (creation_call cfg name) with
     | Returns r => Ok (admitted r)
     | Raises e => Err e
     end,
     (t ++ [Called (creation_call cfg name) (env t (creation_call cfg name))])%list)
  /\ (forall errs,
        forallb error_entry errs = true ->
        reaches_already_exists errs = existsb says_already_exists errs)
  /\ (forall errs,
        reaches_already_exists errs = true -> existsb says_already_exists errs = true).
Proof.
  split; [ | split; [ exact reaches_structured | exact reaches_exists ] ].
  destruct (env t (creation_call cfg name)) as [r|e] eqn:E.
  - rewrite (create_repo_run _ _ _ _ _ E). unfold admitted.
    now rewrite inspect_errors_reaches.
  - unfold create_repo, gh_request, bind, perform.
    fold (creation_call cfg name). now rewrite E.
Qed.

Lemma create_repo_accepts_witness :
  create_repo Sample.cfg Sample.exists_already "tds_demo_2345" []
  = (Ok true,
     [Called (creation_call Sample.cfg "tds_demo_2345")
             (Sample.exists_already [] (creation_call Sample.cfg "tds_demo_2345"))])
  /\ create_repo Sample.cfg Cases.offline "tds_demo_2345" []
     = (Err RequestException,
        [Called (creation_call Sample.cfg "tds_demo_2345") (Raises RequestException)]).
Proof.
  split.
  - rewrite (proj1 (create_repo_accepts Sample.cfg Sample.exists_already
                      "tds_demo_2345" [])).
    reflexivity.
  - rewrite (proj1 (create_repo_accepts Sample.cfg Cases.offline "tds_demo_2345" [])).
    reflexivity.
Defined.

(** C4 as stated fails: the creation call is answered 422 with an error list
    in which a message contains the words, after an entry whose message is
    null; reading that entry raises inside the [try] block and [create_repo]
    returns false. *)
Lemma create_repo_refuses_behind_unreadable :
  status_code Cases.odd_errors = 422
  /\ error_list Cases.odd_errors
     = Some [ VDict [("message", VNone)];
              VDict [("message", VStr "name already exists")] ]
  /\ existsb says_already_exists
       [ VDict [("message", VNone)];
         VDict [("message", VStr "name already exists")] ] = true
  /\ accepted Cases.odd_errors = true
  /\ create_repo Sample.cfg Cases.odd "tds_demo_2345" []
     = (Ok false,
        [Called (creation_call Sample.cfg "tds_demo_2345") (Returns Cases.odd_errors)]).
Proof. repeat split. Qed.

(** The loop stops at the first entry it cannot read: an entry that is not an
    object, or whose message is not a string, raises inside the [try] block,
    and what follows it is not looked at. *)
Example scan_errors_malformed_entry :
  scan_errors [ VInt 7; VDict [("message", VStr "name already exists")] ]
  = Err AttributeError
  /\ scan_errors [ VDict [("code", VStr "missing_field")];
                   VDict [("message", VStr "Name ALREADY Exists")] ]
     = Ok true.
Proof. split; reflexivity. Qed.

(** ** File upsert *)

Lemma status_422 r :
  status_code r = 422 ->
  (status_code r =? 200) || (status_code r =? 201) = false /\ (status_code r =? 422) = true.
Proof. intros ->. now split. Qed.

Lemma status_not_ok r :
  status_code r <> 200 -> status_code r <> 201 ->
  (status_code r =? 200) || (status_code r =? 201) = false.
Proof.
  intros H0 H1. apply orb_false_iff. split; now apply Z.eqb_neq.
Qed.

Lemma status_created r :
  status_code r = 200 \/ status_code r = 201 ->
  (status_code r =? 200) || (status_code r =? 201) = true.
Proof. intros [-> | ->]; reflexivity. Qed.

(** [push_file] once its first PUT is answered 422 and the GET is answered. *)
Lemma push_file_after_get cfg env name filename content t r g :
  env t (put_call cfg name filename content) = Returns r ->
  status_code r = 422 ->
  env (t ++ [Called (put_call cfg name filename content) (Returns r)])%list
      (get_call cfg name filename) = Returns g ->
  push_file cfg env name filename content t
  = (if status_code g =? 200
     then
       sha <- lift (fetched_sha g) ;;
       if truthy sha
       then
         r2 <- perform env (retry_call cfg name filename content sha) ;;
         if (status_code r2 =? 200) || (status_code r2 =? 201)
         then
           sha <- lift (data <~ json r2 ;; commit_or_content_sha data) ;;
           ret (true, sha)
         else ret (false, VNone)
       else ret (false, VNone)
     else ret (false, VNone))
      (t ++ [ Called (put_call cfg name filename content) (Returns r);
              Called (get_call cfg name filename) (Returns g) ])%list.
Proof.
  intros Hput H422 Hget. destruct (status_422 _ H422) as [Hno Hyes].
  unfold push_file, gh_request.
  fold (put_call cfg name filename content). fold (get_call cfg name filename).
  unfold bind at 1, perform at 1. rewrite Hput, Hno, Hyes.
  unfold bind at 1, perform at 1. rewrite Hget, <- app_assoc. reflexivity.
Qed.

Lemma push_file_get_raises cfg env name filename content t r e :
  env t (put_call cfg name filename content) = Returns r ->
  status_code r = 422 ->
  env (t ++ [Called (put_call cfg name filename content) (Returns r)])%list
      (get_call cfg name filename) = Raises e ->
  push_file cfg env name filename content t
  = (Err e,
     (t ++ [ Called (put_call cfg name filename content) (Returns r);
             Called (get_call cfg name filename) (Raises e) ])%list).
Proof.
  intros Hput H422 Hget. destruct (status_422 _ H422) as [Hno Hyes].
  unfold push_file, gh_request.
  fold (put_call cfg name filename content). fold (get_call cfg name filename).
  unfold bind at 1, perform at 1. rewrite Hput, Hno, Hyes.
  unfold bind at 1, perform at 1. rewrite Hget, <- app_assoc. reflexivity.
Qed.

Lemma fetched_sha_object g d : body g = Some (VDict d) -> fetched_sha g = Ok (sha_in d).
Proof. intros H. unfold fetched_sha, json. now rewrite H. Qed.

Lemma fetched_sha_unreadable g :
  (forall d, body g <> Some (VDict d)) -> exists e, fetched_sha g = Err e.
Proof.
  intros H. unfold fetched_sha, json.
  destruct (body g) as [[| | | | | |d]|]; simpl; eauto. now elim (H d).
Qed.

(** C3, as the code has it.  When the first PUT is answered 422 the file is
    read with one GET, and what follows depends on its answer alone.
    - The GET raises: [push_file] raises with it.
    - It is answered with a status other than 200, or 200 with an object whose
      sha is missing or empty: [push_file] returns failure, without a second
      PUT.
    - It is answered 200 with a body that is not an object: reading it raises,
      without a second PUT.
    - It is answered 200 with an object holding a sha: one PUT carrying that
      sha follows and nothing after it; [push_file] returns failure when that
      PUT is answered neither 200 nor 201, and raises when it raises. *)
Theorem push_file_conflict cfg env name filename content t r :
  env t (put_call cfg name filename content) = Returns r ->
  status_code r = 422 ->
  (forall e,
     env (t ++ [Called (put_call cfg name filename content) (Returns r)])%list
         (get_call cfg name filename) = Raises e ->
     push_file cfg env name filename content t
     = (Err e,
        (t ++ [ Called (put_call cfg name filename content) (Returns r);
                Called (get_call cfg name filename) (Raises e) ])%list))
  /\
  (forall g,
     env (t ++ [Called (put_call cfg name filename content) (Returns r)])%list
         (get_call cfg name filename) = Returns g ->
     ((status_code g <> 200
       \/ exists d, body g = Some (VDict d) /\ truthy (sha_in d) = false) ->
      push_file cfg env name filename content t
      = (Ok (false, VNone),
         (t ++ [ Called (put_call cfg name filename content) (Returns r);
                 Called (get_call cfg name filename) (Returns g) ])%list))
     /\
     (status_code g = 200 -> (forall d, body g <> Some (VDict d)) ->
      exists e,
        push_file cfg env name filename content t
        = (Err e,
           (t ++ [ Called (put_call cfg name filename content) (Returns r);
                   Called (get_call cfg name filename) (Returns g) ])%list))
     /\
     (forall d,
        status_code g = 200 -> body g = Some (VDict d) -> truthy (sha_in d) = true ->
        snd (push_file cfg env name filename content t)
        = (t ++ [ Called (put_call cfg name filename content) (Returns r);
                  Called (get_call cfg name filename) (Returns g);
                  Called (retry_call cfg name filename content (sha_in d))
                    (env (t ++ [ Called (put_call cfg name filename content) (Returns r);
                                 Called (get_call cfg name filename) (Returns g) ])%list
                         (retry_call cfg name filename content (sha_in d))) ])%list
        /\
        (forall r2,
           env (t ++ [ Called (put_call cfg name filename content) (Returns r);
                       Called (get_call cfg name filename) (Returns g) ])%list
               (retry_call cfg name filename content (sha_in d)) = Returns r2 ->
           status_code r2 <> 200 -> status_code r2 <> 201 ->
           fst (push_file cfg env name filename content t) = Ok (false, VNone))
        /\
        (forall e,
           env (t ++ [ Called (put_call cfg name filename content) (Returns r);
                       Called (get_call cfg name filename) (Returns g) ])%list
               (retry_call cfg name filename content (sha_in d)) = Raises e ->
           fst (push_file cfg env name filename content t) = Err e))).
Proof.
  intros Hput H422. split.
  - intros e Hget. exact (push_file_get_raises _ _ _ _ _ _ _ _ Hput H422 Hget).
  - intros g Hget.
    rewrite (push_file_after_get _ _ _ _ _ _ _ _ Hput H422 Hget).
    split; [ | split ].
    + intros [Hg | (d & Hb & Hf)].
      * apply Z.eqb_neq in Hg. now rewrite Hg.
      * destruct (status_code g =? 200); [ | reflexivity ].
        unfold bind, lift. rewrite (fetched_sha_object _ _ Hb), Hf. reflexivity.
    + intros H200 Hb. destruct (fetched_sha_unreadable _ Hb) as [e He].
      exists e. rewrite H200, Z.eqb_refl. unfold bind, lift. now rewrite He.
    + intros d H200 Hb Ht. rewrite H200, Z.eqb_refl.
      unfold bind, lift. rewrite (fetched_sha_object _ _ Hb), Ht. unfold perform.
      rewrite <- app_assoc. simpl app. split; [ | split ].
      * destruct (env _ (retry_call cfg name filename content (sha_in d))) as [r2|e];
          [ | reflexivity ].
        destruct ((status_code r2 =? 200) || (status_code r2 =? 201)); [ | reflexivity ].
        now destruct (bind_result _ _).
      * intros r2 H2 Hn0 Hn1. rewrite H2, (status_not_ok _ Hn0 Hn1). reflexivity.
      * intros e H2. now rewrite H2.
Qed.

Lemma push_file_conflict_witness :
  push_file Sample.cfg Sample.stale "tds_demo_2345" "index.html" "<p>hi</p>" []
  = (Ok (false, VNone),
     [ Called (put_call Sample.cfg "tds_demo_2345" "index.html" "<p>hi</p>")
         (Returns (mkResponse 422 None));
       Called (get_call Sample.cfg "tds_demo_2345" "index.html")
         (Returns (mkResponse 200 (Some (VDict [("sha", VStr "0ld")]))));
       Called (retry_call Sample.cfg "tds_demo_2345" "index.html" "<p>hi</p>" (VStr "0ld"))
         (Returns (mkResponse 409 None)) ]).
Proof.
  destruct (push_file_conflict Sample.cfg Sample.stale "tds_demo_2345" "index.html"
              "<p>hi</p>" [] (mkResponse 422 None) eq_refl eq_refl) as [_ H].
  destruct (H (mkResponse 200 (Some (VDict [("sha", VStr "0ld")]))) eq_refl)
    as (_ & _ & Hretry).
  destruct (Hretry [("sha", VStr "0ld")] eq_refl eq_refl eq_refl) as (Htrace & Hfail & _).
  specialize (Hfail (mkResponse 409 None) eq_refl).
  rewrite (surjective_pairing (push_file _ _ _ _ _ _)), Htrace, Hfail;
    [ reflexivity | discriminate | discriminate ].
Defined.

(** C3 as stated fails: here the first PUT is answered 422 and the GET 404,
    and [push_file] stops after the GET, with no second PUT. *)
Lemma push_file_unreadable_no_retry :
  push_file Sample.cfg Sample.unreadable "tds_demo_2345" "index.html" "<p>hi</p>" []
  = (Ok (false, VNone),
     [ Called (put_call Sample.cfg "tds_demo_2345" "index.html" "<p>hi</p>")
         (Returns (mkResponse 422 None));
       Called (get_call Sample.cfg "tds_demo_2345" "index.html")
         (Returns (mkResponse 404 None)) ]).
Proof. reflexivity. Qed.

(** ** The handler after validation *)

(** Run the next step of a sequence with its known result. *)
Ltac run_with H :=
  rewrite (bind_Ok _ _ _ _ _ H); cbv beta iota delta [negb].

(** What the handler answers once the repository and the two required files
    are in place and the license push and the hosting call have returned. *)
Lemma handle_provisioned cfg clock env d name sha_html sha_readme license pages
      t0 t1 t2 t3 t4 t5 :
  passes_validation cfg d = true ->
  name = repo_name_of clock (task_of d) ->
  create_repo cfg env name t0 = (Ok true, t1) ->
  push_file cfg env name "index.html" (html_content name) t1 = (Ok (true, sha_html), t2) ->
  push_file cfg env name "README.md" (readme name (task_of d)) t2
  = (Ok (true, sha_readme), t3) ->
  push_file cfg env name "LICENSE" (mit_license cfg clock) t3 = (Ok license, t4) ->
  enable_pages cfg env name t4 = (Ok pages, t5) ->
  fst (handle cfg clock env (VDict d) t0)
  = Ok (success_response cfg name (or_ sha_html sha_readme)).
Proof.
  unfold passes_validation, secret_of. intros Hv -> Hc Hh Hr Hl Hp.
  apply negb_true_iff in Hv. unfold handle.
  unfold bind at 1, lift at 1, get at 1. rewrite Hv.
  unfold bind at 1, lift at 1, get at 1. fold (task_of d).
  run_with Hc. run_with Hh. run_with Hr. run_with Hl. run_with Hp. cbv zeta.
  unfold bind at 1, lift at 1, get at 1.
  unfold bind at 1, lift at 1, get at 1.
  destruct (truthy _); [ | reflexivity ].
  unfold bind.
  destruct (notify_evaluator_returns env
              (match lookup "evaluation_url" d with Some v => v | None => VNone end)
              (VDict [ ("email", match lookup "email" d with Some v => v | None => VNone end);
                       ("task", task_of d);
                       ("repo", VStr (repo_url cfg (repo_name_of clock (task_of d))));
                       ("pages_url", VStr (pages_url_of cfg (repo_name_of clock (task_of d))));
                       ("commit", or_ sha_html sha_readme) ]) 4 t5) as (b & t' & ->).
  reflexivity.
Qed.

(** C5, as the code has it.  For a request that passes validation, when the
    repository is created, the pushes of index.html and README.md succeed, and
    the license push and the hosting call return, the handler answers success
    with the repository tds_<task>_<time mod 10000> of the user, its pages
    address, and as commit the sha of index.html or, when that is empty, the
    sha of README.md. *)
Theorem handle_success_response cfg clock env d name sha_html sha_readme license pages
        t0 t1 t2 t3 t4 t5 :
  passes_validation cfg d = true ->
  name = "tds_" ++ str (task_of d) ++ "_" ++ decimal (time_time clock mod 10000) ->
  create_repo cfg env name t0 = (Ok true, t1) ->
  push_file cfg env name "index.html" (html_content name) t1 = (Ok (true, sha_html), t2) ->
  push_file cfg env name "README.md" (readme name (task_of d)) t2
  = (Ok (true, sha_readme), t3) ->
  push_file cfg env name "LICENSE" (mit_license cfg clock) t3 = (Ok license, t4) ->
  enable_pages cfg env name t4 = (Ok pages, t5) ->
  fst (handle cfg clock env (VDict d) t0)
  = Ok (VDict [ ("status", VStr "success");
                ("repo", VStr ("https://github.com/" ++ user cfg ++ "/" ++ name));
                ("pages_url", VStr ("https://" ++ user cfg ++ ".github.io/" ++ name ++ "/"));
                ("commit", if truthy sha_html then sha_html else sha_readme) ])
  /\ 0 <= time_time clock mod 10000 < 10000.
Proof.
  intros Hv Hn Hc Hh Hr Hl Hp. split.
  - apply (handle_provisioned cfg clock env d name sha_html sha_readme license pages
             t0 t1 t2 t3 t4 t5); assumption.
  - apply Z.mod_pos_bound. lia.
Qed.

Lemma handle_success_response_witness :
  fst (handle Sample.cfg Sample.clock Sample.all_fine Sample.request [])
  = Ok (VDict [ ("status", VStr "success");
                ("repo", VStr "https://github.com/alice/tds_demo_2345");
                ("pages_url", VStr "https://alice.github.io/tds_demo_2345/");
                ("commit", VStr "abc123") ])
  /\ 0 <= 1700012345 mod 10000 < 10000.
Proof.
  eapply (handle_success_response Sample.cfg Sample.clock Sample.all_fine _ "tds_demo_2345"
            (VStr "abc123") (VStr "abc123") (true, VStr "abc123") true []);
    reflexivity.
Defined.

(** C5 as stated fails: the repository is created and both required files are
    pushed, then the connection drops during the license push; the exception
    is not caught and the handler answers nothing. *)
Lemma handle_license_push_raises :
  exists t1 t2 t3,
    passes_validation Sample.cfg
      [ ("secret", VStr "s1"); ("task", VStr "demo") ] = true
    /\ create_repo Sample.cfg Sample.license_down "tds_demo_2345" [] = (Ok true, t1)
    /\ push_file Sample.cfg Sample.license_down "tds_demo_2345" "index.html"
         (html_content "tds_demo_2345") t1 = (Ok (true, VStr "abc123"), t2)
    /\ push_file Sample.cfg Sample.license_down "tds_demo_2345" "README.md"
         (readme "tds_demo_2345" (VStr "demo")) t2 = (Ok (true, VStr "abc123"), t3)
    /\ handle Sample.cfg Sample.clock Sample.license_down
         (VDict [ ("secret", VStr "s1"); ("task", VStr "demo") ]) []
       = (Err RequestException,
          (t3 ++ [ Called (put_call Sample.cfg "tds_demo_2345" "LICENSE"
                             (mit_license Sample.cfg Sample.clock))
                          (Raises RequestException) ])%list).
Proof.
  do 3 eexists. repeat split; vm_compute; reflexivity.
Qed.

Lemma enable_pages_run cfg env name t r :
  env t (pages_call cfg name) = Returns r ->
  enable_pages cfg env name t
  = (Ok ((status_code r =? 201) || (status_code r =? 204)),
     (t ++ [Called (pages_call cfg name) (Returns r)])%list).
Proof.
  intros H. unfold enable_pages, gh_request, bind, perform.
  fold (pages_call cfg name). now rewrite H.
Qed.




(** ** A success without a commit *)

Lemma push_file_unparseable cfg env name filename content t r :
  env t (put_call cfg name filename content) = Returns r ->
  status_code r = 200 \/ status_code r = 201 ->
  body r = None ->
  push_file cfg env name filename content t
  = (Ok (true, VNone),
     (t ++ [Called (put_call cfg name filename content) (Returns r)])%list).
Proof.
  intros Hput Hs Hb. unfold push_file, gh_request, bind, perform.
  fold (put_call cfg name filename content). rewrite Hput.
  replace ((status_code r =? 200) || (status_code r =? 201)) with true
    by (destruct Hs as [-> | ->]; reflexivity).
  unfold try_except, lift, json. now rewrite Hb.
Qed.

(** C10. Where every call to the platform is answered 201 with a body that is
    not JSON, each push returns success paired with no sha, and a request that
    passes validation is answered success with a null commit. *)
Theorem success_without_commit cfg clock env d t :
  passes_validation cfg d = true ->
  (forall h method url headers json,
     env h (Request method url headers json) = Returns (mkResponse 201 None)) ->
  (forall name filename content h,
     fst (push_file cfg env name filename content h) = Ok (true, VNone))
  /\ fst (handle cfg clock env (VDict d) t)
     = Ok (VDict [ ("status", VStr "success");
                   ("repo", VStr (repo_url cfg (repo_name_of clock (task_of d))));
                   ("pages_url", VStr (pages_url_of cfg (repo_name_of clock (task_of d))));
                   ("commit", VNone) ]).
Proof.
  intros Hv Henv.
  assert (Hpush : forall name filename content h,
             push_file cfg env name filename content h
             = (Ok (true, VNone),
                (h ++ [Called (put_call cfg name filename content)
                              (Returns (mkResponse 201 None))])%list)).
  { intros. apply push_file_unparseable; [ apply Henv | now right | reflexivity ]. }
  split.
  - intros. now rewrite Hpush.
  - apply (handle_provisioned cfg clock env d _ VNone VNone (true, VNone) true
             t _ _ _ _ _ Hv eq_refl
             (create_repo_run cfg env _ t _ (Henv _ _ _ _ _))
             (Hpush _ _ _ _) (Hpush _ _ _ _) (Hpush _ _ _ _)
             (enable_pages_run cfg env _ _ _ (Henv _ _ _ _ _))).
Qed.

Lemma success_without_commit_witness :
  (forall name filename content h,
     fst (push_file Sample.cfg Sample.no_json name filename content h) = Ok (true, VNone))
  /\ fst (handle Sample.cfg Sample.clock Sample.no_json Sample.request [])
     = Ok (VDict [ ("status", VStr "success");
                   ("repo", VStr "https://github.com/alice/tds_demo_2345");
                   ("pages_url", VStr "https://alice.github.io/tds_demo_2345/");
                   ("commit", VNone) ]).
Proof.
  apply (success_without_commit Sample.cfg Sample.clock Sample.no_json
           [ ("secret", VStr "s1"); ("task", VStr "demo");
             ("email", VStr "a@b.c"); ("evaluation_url", VStr "http://eval.test/") ] []).
  - reflexivity.
  - intros. reflexivity.
Defined.

(** ** The response does not depend on the notifier *)

Section Agreement.

Variables (cfg : Config) (env1 env2 : Env).
Hypothesis same : same_platform env1 env2.

Lemma create_repo_agrees name t :
  create_repo cfg env1 name t = create_repo cfg env2 name t.
Proof. unfold create_repo, gh_request, bind, perform. now rewrite same. Qed.

Lemma push_file_agrees name filename content t :
  push_file cfg env1 name filename content t = push_file cfg env2 name filename content t.
Proof.
  unfold push_file, gh_request, bind, perform, try_except, lift, ret.
  rewrite same.
  destruct (env2 t _) as [r|e]; [ | reflexivity ].
  destruct ((status_code r =? 200) || (status_code r =? 201)); [ reflexivity | ].
  destruct (status_code r =? 422); [ | reflexivity ].
  rewrite same.
  destruct (env2 _ _) as [g|e]; [ | reflexivity ].
  destruct (status_code g =? 200); [ | reflexivity ].
  destruct (bind_result _ _) as [sha|e]; [ | reflexivity ].
  destruct (truthy sha); [ | reflexivity ].
  now rewrite same.
Qed.

Lemma enable_pages_agrees name t :
  enable_pages cfg env1 name t = enable_pages cfg env2 name t.
Proof. unfold enable_pages, gh_request, bind, perform. now rewrite same. Qed.

End Agreement.

(** C7. Two environments that answer the platform alike and the evaluator in
    any two ways, so that the notification may succeed in one and fail in the
    other, get the same answer from the handler. *)
Theorem handle_ignores_notifier cfg clock env1 env2 data t :
  same_platform env1 env2 ->
  fst (handle cfg clock env1 data t) = fst (handle cfg clock env2 data t).
Proof.
  intros same. unfold handle, bind, lift.
  destruct (get data "secret" VNone) as [secret|e]; [ | reflexivity ].
  destruct (ne_env secret (SECRET cfg)); [ reflexivity | ].
  destruct (get data "task" (VStr "demo_task")) as [task_id|e]; [ | reflexivity ].
  rewrite (create_repo_agrees cfg env1 env2 same).
  destruct (create_repo cfg env2 _ t) as [[[|]|e] t1]; try reflexivity.
  cbv beta iota delta [negb].
  rewrite (push_file_agrees cfg env1 env2 same).
  destruct (push_file cfg env2 _ "index.html" _ t1) as [[[[|] sha_html]|e] t2];
    try reflexivity.
  cbv beta iota delta [negb].
  rewrite (push_file_agrees cfg env1 env2 same).
  destruct (push_file cfg env2 _ "README.md" _ t2) as [[[[|] sha_readme]|e] t3];
    try reflexivity.
  cbv beta iota delta [negb].
  rewrite (push_file_agrees cfg env1 env2 same).
  destruct (push_file cfg env2 _ "LICENSE" _ t3) as [[license|e] t4]; try reflexivity.
  rewrite (enable_pages_agrees cfg env1 env2 same).
  destruct (enable_pages cfg env2 _ t4) as [[pages|e] t5]; try reflexivity.
  destruct (get data "email" VNone) as [email|e]; [ | reflexivity ].
  destruct (get data "evaluation_url" VNone) as [evaluation_url|e]; [ | reflexivity ].
  destruct (truthy evaluation_url); [ | reflexivity ].
  match goal with
  | |- context [notify_evaluator env1 ?u ?p ?m ?t] =>
      destruct (notify_evaluator_returns env1 u p m t) as (b1 & t1' & ->);
      destruct (notify_evaluator_returns env2 u p m t) as (b2 & t2' & ->)
  end.
  reflexivity.
Qed.

Lemma handle_ignores_notifier_witness :
  fst (notify_evaluator Sample.all_fine (VStr "http://eval.test/") VNone 4 []) = Ok true
  /\ fst (notify_evaluator Sample.evaluator_down (VStr "http://eval.test/") VNone 4 [])
     = Ok false
  /\ fst (handle Sample.cfg Sample.clock Sample.all_fine Sample.request [])
     = fst (handle Sample.cfg Sample.clock Sample.evaluator_down Sample.request []).
Proof.
  split; [ reflexivity | split; [ reflexivity | ] ].
  apply (handle_ignores_notifier Sample.cfg Sample.clock Sample.all_fine
           Sample.evaluator_down Sample.request []).
  intros h method url headers json. reflexivity.
Defined.

(** * Further properties of the handler *)

(** Enter the handler with a request that passes validation. *)
Ltac validated Hv d :=
  unfold passes_validation, secret_of in Hv; apply negb_true_iff in Hv;
  unfold handle;
  unfold bind at 1, lift at 1, get at 1; rewrite Hv;
  unfold bind at 1, lift at 1, get at 1; fold (task_of d).

Lemma create_repo_raises cfg env name t e :
  env t (creation_call cfg name) = Raises e ->
  create_repo cfg env name t
  = (Err e, (t ++ [Called (creation_call cfg name) (Raises e)])%list).
Proof.
  intros H. unfold create_repo, gh_request, bind, perform.
  fold (creation_call cfg name). now rewrite H.
Qed.

Lemma enable_pages_raises cfg env name t e :
  env t (pages_call cfg name) = Raises e ->
  enable_pages cfg env name t
  = (Err e, (t ++ [Called (pages_call cfg name) (Raises e)])%list).
Proof.
  intros H. unfold enable_pages, gh_request, bind, perform.
  fold (pages_call cfg name). now rewrite H.
Qed.

(** X1. A request body that is not a JSON object makes the handler raise
    [AttributeError] at [data.get], before any outbound call. *)
Theorem handle_non_object cfg clock env data t :
  (forall d, data <> VDict d) ->
  handle cfg clock env data t = (Err AttributeError, t).
Proof.
  intros H. destruct data; try reflexivity. now elim (H d).
Qed.

Lemma handle_non_object_witness :
  handle Sample.cfg Sample.clock Sample.all_fine (VList [VStr "s1"]) []
  = (Err AttributeError, []).
Proof.
  apply (handle_non_object Sample.cfg Sample.clock Sample.all_fine (VList [VStr "s1"]) []).
  intros d. discriminate.
Defined.

(** X2. When the repository cannot be created the handler answers with the
    error for it and stops: nothing is pushed, hosting is not enabled and the
    evaluator is not told. *)
Theorem handle_create_failure cfg clock env d t0 t1 :
  passes_validation cfg d = true ->
  create_repo cfg env (repo_name_of clock (task_of d)) t0 = (Ok false, t1) ->
  handle cfg clock env (VDict d) t0
  = (Ok (VDict [("status", VStr "error"); ("reason", VStr "Failed to create repo")]), t1).
Proof.
  intros Hv Hc. validated Hv d. run_with Hc. reflexivity.
Qed.

Lemma handle_create_failure_witness :
  handle Sample.cfg Sample.clock Cases.forbidden Sample.request []
  = (Ok (VDict [("status", VStr "error"); ("reason", VStr "Failed to create repo")]),
     [Called (creation_call Sample.cfg "tds_demo_2345") (Returns (mkResponse 403 None))]).
Proof.
  apply (handle_create_failure Sample.cfg Sample.clock Cases.forbidden
           [ ("secret", VStr "s1"); ("task", VStr "demo");
             ("email", VStr "a@b.c"); ("evaluation_url", VStr "http://eval.test/") ] []);
    reflexivity.
Defined.

(** X3. When index.html cannot be pushed the handler answers with the error
    for it and stops after that push: README.md, the license, hosting and the
    evaluator are not reached. *)
Theorem handle_index_failure cfg clock env d sha t0 t1 t2 :
  passes_validation cfg d = true ->
  create_repo cfg env (repo_name_of clock (task_of d)) t0 = (Ok true, t1) ->
  push_file cfg env (repo_name_of clock (task_of d)) "index.html"
    (html_content (repo_name_of clock (task_of d))) t1 = (Ok (false, sha), t2) ->
  handle cfg clock env (VDict d) t0
  = (Ok (VDict [("status", VStr "error"); ("reason", VStr "Failed to push index.html")]), t2).
Proof.
  intros Hv Hc Hh. validated Hv d. run_with Hc. run_with Hh. reflexivity.
Qed.

Lemma handle_index_failure_witness :
  handle Sample.cfg Sample.clock Cases.created_only Sample.request []
  = (Ok (VDict [("status", VStr "error"); ("reason", VStr "Failed to push index.html")]),
     [ Called (creation_call Sample.cfg "tds_demo_2345") (Returns (mkResponse 201 None));
       Called (put_call Sample.cfg "tds_demo_2345" "index.html"
                 (html_content "tds_demo_2345")) (Returns (mkResponse 500 None)) ]).
Proof.
  eapply (handle_index_failure Sample.cfg Sample.clock Cases.created_only
            [ ("secret", VStr "s1"); ("task", VStr "demo");
              ("email", VStr "a@b.c"); ("evaluation_url", VStr "http://eval.test/") ]
            VNone []);
    reflexivity.
Defined.

(** X4. When README.md cannot be pushed the handler answers with the error
    for it and stops after that push, although index.html is already in the
    repository. *)
Theorem handle_readme_failure cfg clock env d sha_html sha t0 t1 t2 t3 :
  passes_validation cfg d = true ->
  create_repo cfg env (repo_name_of clock (task_of d)) t0 = (Ok true, t1) ->
  push_file cfg env (repo_name_of clock (task_of d)) "index.html"
    (html_content (repo_name_of clock (task_of d))) t1 = (Ok (true, sha_html), t2) ->
  push_file cfg env (repo_name_of clock (task_of d)) "README.md"
    (readme (repo_name_of clock (task_of d)) (task_of d)) t2 = (Ok (false, sha), t3) ->
  handle cfg clock env (VDict d) t0
  = (Ok (VDict [("status", VStr "error"); ("reason", VStr "Failed to push README.md")]), t3).
Proof.
  intros Hv Hc Hh Hr. validated Hv d. run_with Hc. run_with Hh. run_with Hr. reflexivity.
Qed.

Lemma handle_readme_failure_witness :
  handle Sample.cfg Sample.clock Cases.index_only Sample.request []
  = (Ok (VDict [("status", VStr "error"); ("reason", VStr "Failed to push README.md")]),
     [ Called (creation_call Sample.cfg "tds_demo_2345")
         (Returns (mkResponse 201 (Sample.commit_body "abc123")));
       Called (put_call Sample.cfg "tds_demo_2345" "index.html"
                 (html_content "tds_demo_2345"))
         (Returns (mkResponse 201 (Sample.commit_body "abc123")));
       Called (put_call Sample.cfg "tds_demo_2345" "README.md"
                 (readme "tds_demo_2345" (VStr "demo")))
         (Returns (mkResponse 500 None)) ]).
Proof.
  eapply (handle_readme_failure Sample.cfg Sample.clock Cases.index_only
            [ ("secret", VStr "s1"); ("task", VStr "demo");
              ("email", VStr "a@b.c"); ("evaluation_url", VStr "http://eval.test/") ]
            (VStr "abc123") VNone []);
    reflexivity.
Defined.

(** X5. A network failure of the creation call is not caught: the handler
    raises the same exception after that one call and answers nothing. *)
Theorem handle_creation_raises cfg clock env d t e :
  passes_validation cfg d = true ->
  env t (creation_call cfg (repo_name_of clock (task_of d))) = Raises e ->
  handle cfg clock env (VDict d) t
  = (Err e,
     (t ++ [Called (creation_call cfg (repo_name_of clock (task_of d))) (Raises e)])%list).
Proof.
  intros Hv He. validated Hv d.
  now rewrite (bind_Err _ _ _ _ _ (create_repo_raises cfg env _ t e He)).
Qed.

Lemma handle_creation_raises_witness :
  handle Sample.cfg Sample.clock Cases.offline Sample.request []
  = (Err RequestException,
     [Called (creation_call Sample.cfg "tds_demo_2345") (Raises RequestException)]).
Proof.
  apply (handle_creation_raises Sample.cfg Sample.clock Cases.offline
           [ ("secret", VStr "s1"); ("task", VStr "demo");
             ("email", VStr "a@b.c"); ("evaluation_url", VStr "http://eval.test/") ] []);
    reflexivity.
Defined.

(** X6. A network failure of the hosting call is not caught either: with the
    repository created and all three files pushed, the handler raises instead
    of answering, and the evaluator is not told. *)
Theorem handle_hosting_raises cfg clock env d sha_html sha_readme license e
        t0 t1 t2 t3 t4 :
  passes_validation cfg d = true ->
  create_repo cfg env (repo_name_of clock (task_of d)) t0 = (Ok true, t1) ->
  push_file cfg env (repo_name_of clock (task_of d)) "index.html"
    (html_content (repo_name_of clock (task_of d))) t1 = (Ok (true, sha_html), t2) ->
  push_file cfg env (repo_name_of clock (task_of d)) "README.md"
    (readme (repo_name_of clock (task_of d)) (task_of d)) t2 = (Ok (true, sha_readme), t3) ->
  push_file cfg env (repo_name_of clock (task_of d)) "LICENSE" (mit_license cfg clock) t3
  = (Ok license, t4) ->
  env t4 (pages_call cfg (repo_name_of clock (task_of d))) = Raises e ->
  handle cfg clock env (VDict d) t0
  = (Err e,
     (t4 ++ [Called (pages_call cfg (repo_name_of clock (task_of d))) (Raises e)])%list).
Proof.
  intros Hv Hc Hh Hr Hl He. validated Hv d.
  run_with Hc. run_with Hh. run_with Hr. run_with Hl.
  now rewrite (bind_Err _ _ _ _ _ (enable_pages_raises cfg env _ t4 e He)).
Qed.

Lemma handle_hosting_raises_witness :
  exists t4,
    handle Sample.cfg Sample.clock Cases.hosting_down Sample.request []
    = (Err RequestException,
       (t4 ++ [Called (pages_call Sample.cfg "tds_demo_2345") (Raises RequestException)])%list).
Proof.
  eexists.
  eapply (handle_hosting_raises Sample.cfg Sample.clock Cases.hosting_down
            [ ("secret", VStr "s1"); ("task", VStr "demo");
              ("email", VStr "a@b.c"); ("evaluation_url", VStr "http://eval.test/") ]
            (VStr "abc123") (VStr "abc123") (true, VStr "abc123") RequestException []);
    reflexivity.
Defined.

(** X7. On the success path the handler's trace is that of the five
    provisioning steps followed by the notifier's, run on the request's
    evaluation_url with the payload email, task, repo, pages_url, commit; a
    request without evaluation_url, or with an empty one, adds nothing: the
    evaluator is not contacted. *)
Theorem handle_success_trace cfg clock env d name sha_html sha_readme license pages
        t0 t1 t2 t3 t4 t5 :
  passes_validation cfg d = true ->
  name = repo_name_of clock (task_of d) ->
  create_repo cfg env name t0 = (Ok true, t1) ->
  push_file cfg env name "index.html" (html_content name) t1 = (Ok (true, sha_html), t2) ->
  push_file cfg env name "README.md" (readme name (task_of d)) t2
  = (Ok (true, sha_readme), t3) ->
  push_file cfg env name "LICENSE" (mit_license cfg clock) t3 = (Ok license, t4) ->
  enable_pages cfg env name t4 = (Ok pages, t5) ->
  snd (handle cfg clock env (VDict d) t0)
  = if truthy (evaluation_url_of d)
    then snd (notify_evaluator env (evaluation_url_of d)
                (notification cfg d name (or_ sha_html sha_readme)) 4 t5)
    else t5.
Proof.
  intros Hv -> Hc Hh Hr Hl Hp. validated Hv d.
  run_with Hc. run_with Hh. run_with Hr. run_with Hl. run_with Hp. cbv zeta.
  unfold bind at 1, lift at 1, get at 1.
  unfold bind at 1, lift at 1, get at 1.
  fold (evaluation_url_of d). fold (email_of d).
  fold (notification cfg d (repo_name_of clock (task_of d)) (or_ sha_html sha_readme)).
  destruct (truthy (evaluation_url_of d)); [ | reflexivity ].
  unfold bind.
  destruct (notify_evaluator_returns env (evaluation_url_of d)
              (notification cfg d (repo_name_of clock (task_of d)) (or_ sha_html sha_readme))
              4 t5) as (b & t' & ->).
  reflexivity.
Qed.

Lemma handle_success_trace_witness :
  snd (handle Sample.cfg Sample.clock Sample.all_fine Cases.without_url [])
  = snd (enable_pages Sample.cfg Sample.all_fine "tds_demo_2345"
           (snd (push_file Sample.cfg Sample.all_fine "tds_demo_2345" "LICENSE"
                   (mit_license Sample.cfg Sample.clock)
                   (snd (push_file Sample.cfg Sample.all_fine "tds_demo_2345" "README.md"
                           (readme "tds_demo_2345" (VStr "demo"))
                           (snd (push_file Sample.cfg Sample.all_fine "tds_demo_2345"
                                   "index.html" (html_content "tds_demo_2345")
                                   (snd (create_repo Sample.cfg Sample.all_fine
                                           "tds_demo_2345" [])))))))))
  /\ length (snd (handle Sample.cfg Sample.clock Sample.all_fine Cases.without_url []))
     = 5%nat.
Proof.
  split; [ | reflexivity ].
  eapply (handle_success_trace Sample.cfg Sample.clock Sample.all_fine
            [ ("secret", VStr "s1"); ("task", VStr "demo") ] "tds_demo_2345"
            (VStr "abc123") (VStr "abc123") (true, VStr "abc123") true []);
    reflexivity.
Defined.

(** ** What the handler sends, and to whom *)

Lemma emits_ret {A} P n (a : A) : emits P n (ret a).
Proof.
  intros t. exists []. simpl. rewrite app_nil_r. repeat split; [ constructor | lia ].
Qed.

Lemma emits_lift {A} P n (r : result A) : emits P n (lift r).
Proof.
  intros t. exists []. simpl. rewrite app_nil_r. repeat split; [ constructor | lia ].
Qed.

Lemma emits_weaken {A} (P Q : event -> Prop) n m (c : IO A) :
  (forall ev, P ev -> Q ev) -> (n <= m)%nat -> emits P n c -> emits Q m c.
Proof.
  intros HPQ Hnm Hc t. destruct (Hc t) as (s & Hs & HP & Hl).
  exists s. repeat split; [ exact Hs | | lia ].
  eapply Forall_impl; [ exact HPQ | exact HP ].
Qed.

Lemma emits_bind {A B} P n1 n2 (c : IO A) (k : A -> IO B) :
  emits P n1 c -> (forall a, emits P n2 (k a)) -> emits P (n1 + n2) (bind c k).
Proof.
  intros Hc Hk t. unfold bind. destruct (Hc t) as (s & Hs & HP & Hl).
  destruct (c t) as [[a|e] t']; simpl in Hs; subst t'.
  - destruct (Hk a (t ++ s)%list) as (s' & Hs' & HP' & Hl').
    exists (s ++ s')%list. rewrite Hs', app_assoc. repeat split.
    + now apply Forall_app.
    + rewrite length_app. lia.
  - exists s. repeat split; [ exact HP | lia ].
Qed.

Lemma emits_bind_Ok {A B} P n (a : A) (k : A -> IO B) :
  emits P n (k a) -> emits P n (bind (lift (Ok a)) k).
Proof. intros Hk t. exact (Hk t). Qed.

Lemma emits_try {A} P n1 n2 (c : IO A) (h : exn -> IO A) :
  emits P n1 c -> (forall e, emits P n2 (h e)) -> emits P (n1 + n2) (try_except c h).
Proof.
  intros Hc Hh t. unfold try_except. destruct (Hc t) as (s & Hs & HP & Hl).
  destruct (c t) as [[a|e] t']; simpl in Hs; subst t'.
  - exists s. repeat split; [ exact HP | lia ].
  - destruct (Hh e (t ++ s)%list) as (s' & Hs' & HP' & Hl').
    exists (s ++ s')%list. rewrite Hs', app_assoc. repeat split.
    + now apply Forall_app.
    + rewrite length_app. lia.
Qed.

Lemma emits_perform (P : event -> Prop) env c :
  (forall o, P (Called c o)) -> emits P 1 (perform env c).
Proof.
  intros H t. exists [Called c (env t c)]. repeat split; [ | simpl; lia ].
  constructor; [ apply H | constructor ].
Qed.

Lemma emits_sleep (P : event -> Prop) d : P (Slept d) -> emits P 1 (sleep d).
Proof.
  intros H t. exists [Slept d]. repeat split; [ | simpl; lia ].
  constructor; [ exact H | constructor ].
Qed.

Lemma platform_gh_request cfg env method url json :
  String.prefix "https://api.github.com/" url = true ->
  emits (platform_event cfg) 1 (gh_request cfg env method url json).
Proof. intros H. apply emits_perform. intros o. now split. Qed.

Lemma emits_create_repo cfg env name :
  emits (platform_event cfg) 1 (create_repo cfg env name).
Proof.
  unfold create_repo. apply (emits_bind _ 1 0).
  - now apply platform_gh_request.
  - intros r. destruct (status_code r =? 201); [ apply emits_ret | ].
    apply (emits_bind _ 0 0).
    + destruct (status_code r =? 422); [ | apply emits_ret ].
      apply (emits_try _ 0 0); [ apply emits_lift | intros e; apply emits_ret ].
    + intros b. destruct b; apply emits_ret.
Qed.

Lemma emits_push_file cfg env name filename content :
  emits (platform_event cfg) 3 (push_file cfg env name filename content).
Proof.
  unfold push_file. apply (emits_bind _ 1 2).
  - now apply platform_gh_request.
  - intros r. destruct ((status_code r =? 200) || (status_code r =? 201)).
    + apply (emits_try _ 0 2); [ apply emits_lift | intros e; apply emits_ret ].
    + destruct (status_code r =? 422); [ | apply emits_ret ].
      apply (emits_bind _ 1 1); [ now apply platform_gh_request | intros g ].
      destruct (status_code g =? 200); [ | apply emits_ret ].
      apply (emits_bind _ 0 1); [ apply emits_lift | intros sha ].
      destruct (truthy sha); [ | apply emits_ret ].
      apply (emits_bind _ 1 0); [ now apply platform_gh_request | intros r2 ].
      destruct ((status_code r2 =? 200) || (status_code r2 =? 201)); [ | apply emits_ret ].
      apply (emits_bind _ 0 0); [ apply emits_lift | intros s; apply emits_ret ].
Qed.

Lemma emits_enable_pages cfg env name :
  emits (platform_event cfg) 1 (enable_pages cfg env name).
Proof.
  unfold enable_pages. apply (emits_bind _ 1 0).
  - now apply platform_gh_request.
  - intros r. apply emits_ret.
Qed.

Lemma emits_notify_rounds env url payload ds :
  incl ds delays ->
  emits (notifier_event url) (2 * length ds) (notify_rounds env url payload ds).
Proof.
  induction ds as [|d ds IH]; intros Hin; simpl notify_rounds.
  - apply emits_ret.
  - replace (2 * length (d :: ds))%nat with (1 + (1 + 2 * length ds))%nat by (simpl; lia).
    apply emits_bind.
    + replace 1%nat with (1 + 0)%nat by reflexivity. apply emits_try.
      * replace 1%nat with (1 + 0)%nat by reflexivity. apply emits_bind.
        -- apply emits_perform. intros o. now split.
        -- intros r. apply emits_ret.
      * intros e. apply emits_ret.
    + intros done. destruct done; [ apply emits_ret | ].
      apply emits_bind.
      * apply emits_sleep. simpl. apply Hin. now left.
      * intros _. apply IH. intros x Hx. apply Hin. now right.
Qed.

Lemma emits_notify_evaluator env url payload m :
  emits (notifier_event url) 8 (notify_evaluator env url payload m).
Proof. apply (emits_notify_rounds env url payload delays). apply incl_refl. Qed.

Lemma posts_platform cfg s : Forall (platform_event cfg) s -> posts s = O.
Proof.
  induction 1 as [|ev s Hev _ IH]; [ reflexivity | ].
  destruct ev as [[m u h j|u p tm] o|d]; simpl in *; [ exact IH | now elim Hev | now elim Hev ].
Qed.

(** A computation that only talks to the platform leaves the number of POSTs
    to an evaluator as it was. *)
Lemma platform_keeps_posts {A} cfg n (c : IO A) t :
  emits (platform_event cfg) n c -> posts (snd (c t)) = posts t.
Proof.
  intros H. destruct (H t) as (s & -> & HP & _).
  rewrite posts_app, (posts_platform _ _ HP). lia.
Qed.

(** X8. Whatever the environment does, one request to the handler causes at
    most 19 events, and each is either a call to api.github.com carrying
    [HEADERS], or a POST with a timeout of 10 seconds to the evaluation_url of
    the request, or a sleep of 2, 4, 8 or 16 seconds. *)
Theorem handle_traffic cfg clock env d t :
  exists s,
    snd (handle cfg clock env (VDict d) t) = (t ++ s)%list
    /\ Forall (fun ev => platform_event cfg ev \/ notifier_event (evaluation_url_of d) ev) s
    /\ (length s <= 19)%nat.
Proof.
  revert t.
  change (emits (fun ev => platform_event cfg ev \/ notifier_event (evaluation_url_of d) ev)
            19 (handle cfg clock env (VDict d))).
  set (P := fun ev => platform_event cfg ev \/ notifier_event (evaluation_url_of d) ev).
  assert (HL : forall A n (c : IO A), emits (platform_event cfg) n c -> emits P n c).
  { intros A n c. apply emits_weaken; [ intros ev; now left | lia ]. }
  unfold handle, get. apply emits_bind_Ok.
  destruct (ne_env _ _); [ apply emits_ret | ].
  apply emits_bind_Ok.
  apply (emits_bind P 1 18); [ apply HL, emits_create_repo | intros created ].
  destruct (negb created); [ apply emits_ret | ].
  apply (emits_bind P 3 15); [ apply HL, emits_push_file | intros [ok sha_html] ].
  destruct (negb ok); [ apply emits_ret | ].
  apply (emits_bind P 3 12); [ apply HL, emits_push_file | intros [ok' sha_readme] ].
  destruct (negb ok'); [ apply emits_ret | ].
  apply (emits_bind P 3 9); [ apply HL, emits_push_file | intros _ ].
  apply (emits_bind P 1 8); [ apply HL, emits_enable_pages | intros _ ].
  cbv zeta. apply emits_bind_Ok. apply emits_bind_Ok. fold (evaluation_url_of d).
  apply (emits_bind P 8 0); [ | intros _; apply emits_ret ].
  destruct (truthy (evaluation_url_of d)); [ | apply emits_ret ].
  apply (emits_bind P 8 0); [ | intros _; apply emits_ret ].
  eapply emits_weaken; [ | | apply emits_notify_evaluator ]; [ intros ev; now right | lia ].
Qed.

Lemma lands_ret {A} (Q : result A -> Prop) (a : A) : Q (Ok a) -> lands Q (ret a).
Proof. intros H t. exact H. Qed.

Lemma lands_bind {A B} (Q : result B -> Prop) (c : IO A) (k : A -> IO B) :
  (forall e, Q (Err e)) -> (forall a, lands Q (k a)) -> lands Q (bind c k).
Proof.
  intros He Hk t. unfold bind. destruct (c t) as [[a|e] t'].
  - apply Hk.
  - apply He.
Qed.

Ltac error_answer reason :=
  apply lands_ret; left; exists reason; split; [ simpl; tauto | reflexivity ].

(** X9. Whatever the request and the environment, when the handler answers,
    the answer is an error with one of the four reasons or a success with
    repo, pages_url and commit. *)
Theorem handle_answers cfg clock env data t :
  answer cfg (fst (handle cfg clock env data t)).
Proof.
  revert t. change (lands (answer cfg) (handle cfg clock env data)).
  assert (He : forall e, answer cfg (Err e)) by (intros e; exact I).
  unfold handle. apply lands_bind; [ exact He | intros secret ].
  destruct (ne_env _ _); [ error_answer "Invalid secret" | ].
  apply lands_bind; [ exact He | intros task_id ].
  apply lands_bind; [ exact He | intros created ].
  destruct (negb created); [ error_answer "Failed to create repo" | ].
  apply lands_bind; [ exact He | intros [ok sha_html] ].
  destruct (negb ok); [ error_answer "Failed to push index.html" | ].
  apply lands_bind; [ exact He | intros [ok' sha_readme] ].
  destruct (negb ok'); [ error_answer "Failed to push README.md" | ].
  do 5 (apply lands_bind; [ exact He | intros ? ]).
  apply lands_ret. right. eexists _, _. reflexivity.
Qed.

Lemma handle_posts cfg clock env d t res t' :
  handle cfg clock env (VDict d) t = (res, t') ->
  (posts t < posts t')%nat ->
  truthy (evaluation_url_of d) = true
  /\ exists commit,
       res = Ok (success_response cfg (repo_name_of clock (task_of d)) commit).
Proof.
  unfold handle, get.
  unfold bind at 1, lift at 1.
  destruct (ne_env _ _); [ intros [= <- <-]; lia | ].
  unfold bind at 1, lift at 1. fold (task_of d).
  set (name := repo_name_of clock (task_of d)).
  unfold bind at 1.
  pose proof (platform_keeps_posts cfg 1 _ t (emits_create_repo cfg env name)) as P1.
  destruct (create_repo cfg env name t) as [[[|]|e] t1]; simpl in P1;
    cbv beta iota delta [negb]; try (intros [= <- <-]; lia).
  unfold bind at 1.
  pose proof (platform_keeps_posts cfg 3 _ t1
                (emits_push_file cfg env name "index.html" (html_content name))) as P2.
  destruct (push_file cfg env name "index.html" (html_content name) t1)
    as [[[[|] sha_html]|e] t2]; simpl in P2;
    cbv beta iota delta [negb]; try (intros [= <- <-]; lia).
  unfold bind at 1.
  pose proof (platform_keeps_posts cfg 3 _ t2
                (emits_push_file cfg env name "README.md" (readme name (task_of d)))) as P3.
  destruct (push_file cfg env name "README.md" (readme name (task_of d)) t2)
    as [[[[|] sha_readme]|e] t3]; simpl in P3;
    cbv beta iota delta [negb]; try (intros [= <- <-]; lia).
  unfold bind at 1.
  pose proof (platform_keeps_posts cfg 3 _ t3
                (emits_push_file cfg env name "LICENSE" (mit_license cfg clock))) as P4.
  destruct (push_file cfg env name "LICENSE" (mit_license cfg clock) t3)
    as [[license|e] t4]; simpl in P4; try (intros [= <- <-]; lia).
  unfold bind at 1.
  pose proof (platform_keeps_posts cfg 1 _ t4 (emits_enable_pages cfg env name)) as P5.
  destruct (enable_pages cfg env name t4) as [[pages|e] t5]; simpl in P5;
    try (intros [= <- <-]; lia).
  cbv zeta. unfold bind at 1, lift at 1. unfold bind at 1, lift at 1.
  fold (evaluation_url_of d).
  destruct (truthy (evaluation_url_of d)).
  - unfold bind.
    match goal with
    | |- context [notify_evaluator env ?u ?p ?m ?t] =>
        destruct (notify_evaluator_returns env u p m t) as (b & t'' & ->)
    end.
    intros [= <- <-] _. split; [ reflexivity | ]. now exists (or_ sha_html sha_readme).
  - intros [= <- <-]. lia.
Qed.

(** X10. The evaluator is contacted only at the end of a successful run: if
    the handler's trace gains a POST to an evaluator, the request has a
    non-empty evaluation_url and the handler answers success. *)
Theorem handle_notifies_on_success_only cfg clock env d t :
  (posts t < posts (snd (handle cfg clock env (VDict d) t)))%nat ->
  truthy (evaluation_url_of d) = true
  /\ exists commit,
       fst (handle cfg clock env (VDict d) t)
       = Ok (success_response cfg (repo_name_of clock (task_of d)) commit).
Proof.
  intros H. exact (handle_posts cfg clock env d t _ _ (surjective_pairing _) H).
Qed.

Lemma handle_notifies_on_success_only_witness :
  truthy (VStr "http://eval.test/") = true
  /\ exists commit,
       fst (handle Sample.cfg Sample.clock Sample.all_fine Sample.request [])
       = Ok (success_response Sample.cfg "tds_demo_2345" commit).
Proof.
  apply (handle_notifies_on_success_only Sample.cfg Sample.clock Sample.all_fine
           [ ("secret", VStr "s1"); ("task", VStr "demo");
             ("email", VStr "a@b.c"); ("evaluation_url", VStr "http://eval.test/") ] []).
  vm_compute. lia.
Defined.

(** * Further properties of the file upsert *)

(** [push_file] once its first PUT is answered 200 or 201. *)
Lemma push_file_put_accepted cfg env name filename content t r :
  env t (put_call cfg name filename content) = Returns r ->
  status_code r = 200 \/ status_code r = 201 ->
  push_file cfg env name filename content t
  = (Ok (true, match data <~ json r ;; commit_or_content_sha data with
               | Ok sha => sha
               | Err _ => VNone
               end),
     (t ++ [Called (put_call cfg name filename content) (Returns r)])%list).
Proof.
  intros Hput Hs. unfold push_file, gh_request, bind, perform.
  fold (put_call cfg name filename content). rewrite Hput, (status_created _ Hs).
  unfold try_except, lift.
  destruct (json r) as [data|e]; simpl; [ | reflexivity ].
  now destruct (commit_or_content_sha data).
Qed.

(** X11. A first PUT answered 200 or 201 always makes [push_file] return
    success after that single call: nothing the body holds, or fails to hold,
    can make it raise or fetch the file. *)
Theorem push_file_accepted cfg env name filename content t r :
  env t (put_call cfg name filename content) = Returns r ->
  status_code r = 200 \/ status_code r = 201 ->
  exists sha,
    push_file cfg env name filename content t
    = (Ok (true, sha),
       (t ++ [Called (put_call cfg name filename content) (Returns r)])%list).
Proof.
  intros Hput Hs. eexists. exact (push_file_put_accepted _ _ _ _ _ _ _ Hput Hs).
Qed.

Lemma push_file_accepted_witness :
  exists sha,
    push_file Sample.cfg Sample.all_fine "tds_demo_2345" "index.html" "<p>hi</p>" []
    = (Ok (true, sha),
       [Called (put_call Sample.cfg "tds_demo_2345" "index.html" "<p>hi</p>")
               (Returns (mkResponse 201 (Sample.commit_body "abc123")))]).
Proof.
  apply (push_file_accepted Sample.cfg Sample.all_fine "tds_demo_2345" "index.html"
           "<p>hi</p>" [] (mkResponse 201 (Sample.commit_body "abc123"))).
  - reflexivity.
  - now right.
Defined.

(** X12. The sha returned for an accepted PUT is the commit's when the body
    has one that is not empty, whatever the body says under content. *)
Theorem push_file_commit_sha cfg env name filename content t r data commit sha :
  env t (put_call cfg name filename content) = Returns r ->
  status_code r = 200 \/ status_code r = 201 ->
  body r = Some (VDict data) ->
  lookup "commit" data = Some (VDict commit) ->
  lookup "sha" commit = Some sha ->
  truthy sha = true ->
  fst (push_file cfg env name filename content t) = Ok (true, sha).
Proof.
  intros Hput Hs Hb Hc Hsha Ht.
  rewrite (push_file_put_accepted _ _ _ _ _ _ _ Hput Hs).
  unfold json, commit_or_content_sha. rewrite Hb. simpl. rewrite Hc. simpl.
  rewrite Hsha, Ht. reflexivity.
Qed.

Lemma push_file_commit_sha_witness :
  fst (push_file Sample.cfg Sample.all_fine "tds_demo_2345" "index.html" "<p>hi</p>" [])
  = Ok (true, VStr "abc123").
Proof.
  apply (push_file_commit_sha Sample.cfg Sample.all_fine "tds_demo_2345" "index.html"
           "<p>hi</p>" [] (mkResponse 201 (Sample.commit_body "abc123"))
           [("commit", VDict [("sha", VStr "abc123")])] [("sha", VStr "abc123")]
           (VStr "abc123"));
    solve [ reflexivity | now right ].
Defined.

(** X13. When the body of an accepted PUT has no commit entry, the sha
    returned is the one under content, and [None] when content has none. *)
Theorem push_file_content_sha cfg env name filename content t r data file :
  env t (put_call cfg name filename content) = Returns r ->
  status_code r = 200 \/ status_code r = 201 ->
  body r = Some (VDict data) ->
  lookup "commit" data = None ->
  lookup "content" data = Some (VDict file) ->
  fst (push_file cfg env name filename content t)
  = Ok (true, match lookup "sha" file with Some sha => sha | None => VNone end).
Proof.
  intros Hput Hs Hb Hc Hf.
  rewrite (push_file_put_accepted _ _ _ _ _ _ _ Hput Hs).
  unfold json, commit_or_content_sha. rewrite Hb. simpl. rewrite Hc. simpl.
  rewrite Hf. reflexivity.
Qed.

Lemma push_file_content_sha_witness :
  fst (push_file Sample.cfg
         (fun _ _ => Returns (mkResponse 200
                                (Some (VDict [("content", VDict [("sha", VStr "f1le")])]))))
         "tds_demo_2345" "index.html" "<p>hi</p>" [])
  = Ok (true, VStr "f1le").
Proof.
  apply (push_file_content_sha Sample.cfg _ "tds_demo_2345" "index.html" "<p>hi</p>" []
           (mkResponse 200 (Some (VDict [("content", VDict [("sha", VStr "f1le")])])))
           [("content", VDict [("sha", VStr "f1le")])] [("sha", VStr "f1le")]);
    solve [ reflexivity | now left ].
Defined.

(** X14. A first PUT answered with any status other than 200, 201 and 422
    makes [push_file] fail at once: the file is not read and the PUT is not
    repeated. *)
Theorem push_file_refused cfg env name filename content t r :
  env t (put_call cfg name filename content) = Returns r ->
  status_code r <> 200 -> status_code r <> 201 -> status_code r <> 422 ->
  push_file cfg env name filename content t
  = (Ok (false, VNone),
     (t ++ [Called (put_call cfg name filename content) (Returns r)])%list).
Proof.
  intros Hput H0 H1 H2. unfold push_file, gh_request, bind, perform.
  fold (put_call cfg name filename content). rewrite Hput, (status_not_ok _ H0 H1).
  apply Z.eqb_neq in H2. now rewrite H2.
Qed.

Lemma push_file_refused_witness :
  push_file Sample.cfg Cases.forbidden "tds_demo_2345" "index.html" "<p>hi</p>" []
  = (Ok (false, VNone),
     [Called (put_call Sample.cfg "tds_demo_2345" "index.html" "<p>hi</p>")
             (Returns (mkResponse 403 None))]).
Proof.
  apply (push_file_refused Sample.cfg Cases.forbidden "tds_demo_2345" "index.html"
           "<p>hi</p>" [] (mkResponse 403 None));
    solve [ reflexivity | discriminate ].
Defined.

(** X15. On the 422 path JSON errors are not caught: a GET answered 200 with
    a body that is not JSON makes [push_file] raise after the GET. *)
Theorem push_file_garbled_get cfg env name filename content t r g :
  env t (put_call cfg name filename content) = Returns r ->
  status_code r = 422 ->
  env (t ++ [Called (put_call cfg name filename content) (Returns r)])%list
      (get_call cfg name filename) = Returns g ->
  status_code g = 200 ->
  body g = None ->
  push_file cfg env name filename content t
  = (Err JSONDecodeError,
     (t ++ [ Called (put_call cfg name filename content) (Returns r);
             Called (get_call cfg name filename) (Returns g) ])%list).
Proof.
  intros Hput H422 Hget H200 Hb.
  rewrite (push_file_after_get _ _ _ _ _ _ _ _ Hput H422 Hget), H200, Z.eqb_refl.
  unfold bind, lift, fetched_sha, json. now rewrite Hb.
Qed.

Lemma push_file_garbled_get_witness :
  push_file Sample.cfg Cases.updated_garbled_get "tds_demo_2345" "index.html" "<p>hi</p>" []
  = (Err JSONDecodeError,
     [ Called (put_call Sample.cfg "tds_demo_2345" "index.html" "<p>hi</p>")
         (Returns (mkResponse 422 None));
       Called (get_call Sample.cfg "tds_demo_2345" "index.html")
         (Returns (mkResponse 200 None)) ]).
Proof.
  apply (push_file_garbled_get Sample.cfg Cases.updated_garbled_get "tds_demo_2345"
           "index.html" "<p>hi</p>" [] (mkResponse 422 None) (mkResponse 200 None));
    reflexivity.
Defined.

(** X16. Nor are they caught after the retried PUT: when it is answered 200
    or 201 with a body that is not JSON, [push_file] raises although the file
    was written, where the same answer to the first PUT gives success. *)
Theorem push_file_garbled_retry cfg env name filename content t r g sha r2 :
  env t (put_call cfg name filename content) = Returns r ->
  status_code r = 422 ->
  env (t ++ [Called (put_call cfg name filename content) (Returns r)])%list
      (get_call cfg name filename) = Returns g ->
  status_code g = 200 ->
  fetched_sha g = Ok sha ->
  truthy sha = true ->
  env (t ++ [ Called (put_call cfg name filename content) (Returns r);
              Called (get_call cfg name filename) (Returns g) ])%list
      (retry_call cfg name filename content sha) = Returns r2 ->
  status_code r2 = 200 \/ status_code r2 = 201 ->
  body r2 = None ->
  push_file cfg env name filename content t
  = (Err JSONDecodeError,
     (t ++ [ Called (put_call cfg name filename content) (Returns r);
             Called (get_call cfg name filename) (Returns g);
             Called (retry_call cfg name filename content sha) (Returns r2) ])%list).
Proof.
  intros Hput H422 Hget H200 Hsha Ht Hretry Hs Hb.
  rewrite (push_file_after_get _ _ _ _ _ _ _ _ Hput H422 Hget), H200, Z.eqb_refl.
  unfold bind, lift. rewrite Hsha, Ht. unfold perform.
  rewrite Hretry, (status_created _ Hs). unfold json. rewrite Hb. simpl.
  now rewrite <- app_assoc.
Qed.

Lemma push_file_garbled_retry_witness :
  push_file Sample.cfg Cases.updated_garbled_put "tds_demo_2345" "index.html" "<p>hi</p>" []
  = (Err JSONDecodeError,
     [ Called (put_call Sample.cfg "tds_demo_2345" "index.html" "<p>hi</p>")
         (Returns (mkResponse 422 None));
       Called (get_call Sample.cfg "tds_demo_2345" "index.html")
         (Returns (mkResponse 200 (Some (VDict [("sha", VStr "0ld")]))));
       Called (retry_call Sample.cfg "tds_demo_2345" "index.html" "<p>hi</p>" (VStr "0ld"))
         (Returns (mkResponse 201 None)) ]).
Proof.
  apply (push_file_garbled_retry Sample.cfg Cases.updated_garbled_put "tds_demo_2345"
           "index.html" "<p>hi</p>" [] (mkResponse 422 None)
           (mkResponse 200 (Some (VDict [("sha", VStr "0ld")]))) (VStr "0ld")
           (mkResponse 201 None));
    solve [ reflexivity | now right ].
Defined.

(** X17. The update path: the first PUT answered 422, the GET giving the
    file's sha and the PUT carrying it answered 200 or 201 make [push_file]
    return success with the sha of the new commit, after exactly these three
    calls. *)
Theorem push_file_updated cfg env name filename content t r g sha r2 data new_sha :
  env t (put_call cfg name filename content) = Returns r ->
  status_code r = 422 ->
  env (t ++ [Called (put_call cfg name filename content) (Returns r)])%list
      (get_call cfg name filename) = Returns g ->
  status_code g = 200 ->
  fetched_sha g = Ok sha ->
  truthy sha = true ->
  env (t ++ [ Called (put_call cfg name filename content) (Returns r);
              Called (get_call cfg name filename) (Returns g) ])%list
      (retry_call cfg name filename content sha) = Returns r2 ->
  status_code r2 = 200 \/ status_code r2 = 201 ->
  body r2 = Some data ->
  commit_or_content_sha data = Ok new_sha ->
  push_file cfg env name filename content t
  = (Ok (true, new_sha),
     (t ++ [ Called (put_call cfg name filename content) (Returns r);
             Called (get_call cfg name filename) (Returns g);
             Called (retry_call cfg name filename content sha) (Returns r2) ])%list).
Proof.
  intros Hput H422 Hget H200 Hsha Ht Hretry Hs Hb Hnew.
  rewrite (push_file_after_get _ _ _ _ _ _ _ _ Hput H422 Hget), H200, Z.eqb_refl.
  unfold bind, lift. rewrite Hsha, Ht. unfold perform.
  rewrite Hretry, (status_created _ Hs). unfold json. rewrite Hb. simpl.
  rewrite Hnew. simpl. now rewrite <- app_assoc.
Qed.

Lemma push_file_updated_witness :
  push_file Sample.cfg Cases.updated "tds_demo_2345" "index.html" "<p>hi</p>" []
  = (Ok (true, VStr "n3w"),
     [ Called (put_call Sample.cfg "tds_demo_2345" "index.html" "<p>hi</p>")
         (Returns (mkResponse 422 None));
       Called (get_call Sample.cfg "tds_demo_2345" "index.html")
         (Returns (mkResponse 200 (Some (VDict [("sha", VStr "0ld")]))));
       Called (retry_call Sample.cfg "tds_demo_2345" "index.html" "<p>hi</p>" (VStr "0ld"))
         (Returns (mkResponse 200 (Sample.commit_body "n3w"))) ]).
Proof.
  apply (push_file_updated Sample.cfg Cases.updated "tds_demo_2345" "index.html"
           "<p>hi</p>" [] (mkResponse 422 None)
           (mkResponse 200 (Some (VDict [("sha", VStr "0ld")]))) (VStr "0ld")
           (mkResponse 200 (Sample.commit_body "n3w"))
           (VDict [("commit", VDict [("sha", VStr "n3w")])]) (VStr "n3w"));
    solve [ reflexivity | now left ].
Defined.

(** X18. [push_file] never makes more than three calls: its PUT, then, only
    when that PUT was answered 422, one GET of the file, and after the GET at
    most one more PUT, the one that carries the fetched sha. *)
Theorem push_file_calls cfg env name filename content t :
  exists rest,
    snd (push_file cfg env name filename content t)
    = (t ++ Called (put_call cfg name filename content)
              (env t (put_call cfg name filename content)) :: rest)%list
    /\ (rest = []
        \/ ((exists r, env t (put_call cfg name filename content) = Returns r
                       /\ status_code r = 422)
            /\ exists answer,
                 rest = [Called (get_call cfg name filename) answer]
                 \/ exists sha answer',
                      rest = [ Called (get_call cfg name filename) answer;
                               Called (retry_call cfg name filename content sha) answer' ])).
Proof.
  unfold push_file, gh_request, bind, perform.
  fold (put_call cfg name filename content). fold (get_call cfg name filename).
  destruct (env t (put_call cfg name filename content)) as [r|e];
    [ | exists []; split; [ reflexivity | now left ] ].
  destruct ((status_code r =? 200) || (status_code r =? 201)).
  { exists []. split; [ | now left ]. unfold try_except, lift.
    now destruct (bind_result _ _). }
  destruct (status_code r =? 422) eqn:H422;
    [ | exists []; split; [ reflexivity | now left ] ].
  apply Z.eqb_eq in H422.
  assert (Hr : exists r', Returns r = Returns r' /\ status_code r' = 422) by now exists r.
  destruct (env _ (get_call cfg name filename)) as [g|e] eqn:Hget.
  2:{ eexists. rewrite <- app_assoc. split; [ reflexivity | right ].
      split; [ exact Hr | ]. eexists. now left. }
  assert (Hone : forall res : result (bool * value),
             exists rest,
               snd (res, ((t ++ [Called (put_call cfg name filename content) (Returns r)])
                            ++ [Called (get_call cfg name filename) (Returns g)])%list)
               = (t ++ Called (put_call cfg name filename content) (Returns r) :: rest)%list
               /\ (rest = []
                   \/ ((exists r', Returns r = Returns r' /\ status_code r' = 422)
                       /\ exists answer,
                            rest = [Called (get_call cfg name filename) answer]
                            \/ exists sha answer',
                                 rest = [ Called (get_call cfg name filename) answer;
                                          Called (retry_call cfg name filename content sha)
                                            answer' ]))).
  { intros res. eexists. rewrite <- app_assoc. split; [ reflexivity | right ].
    split; [ exact Hr | ]. eexists. now left. }
  destruct (status_code g =? 200); [ | apply Hone ].
  unfold lift. destruct (bind_result _ _) as [sha|e]; [ | apply Hone ].
  destruct (truthy sha); [ | apply Hone ].
  change (Request "PUT" (contents_url cfg name filename) (HEADERS cfg)
            (Some (VDict (dict_set "sha" sha (put_payload filename content)))))
    with (retry_call cfg name filename content sha).
  match goal with
  | |- context [env ?h (retry_call cfg name filename content sha)] =>
      set (answer' := env h (retry_call cfg name filename content sha))
  end.
  exists [ Called (get_call cfg name filename) (Returns g);
           Called (retry_call cfg name filename content sha) answer' ].
  split.
  - destruct answer' as [r2|e].
    + destruct ((status_code r2 =? 200) || (status_code r2 =? 201)).
      * destruct (bind_result _ _); simpl; rewrite <- !app_assoc; reflexivity.
      * simpl. rewrite <- !app_assoc. reflexivity.
    + simpl. rewrite <- !app_assoc. reflexivity.
  - right. split; [ exact Hr | ]. eexists. right. eexists _, _. reflexivity.
Qed.

(** * Further properties of repository creation and of the notifier *)

Lemma scan_errors_stops before bad after :
  forallb error_entry before = true ->
  existsb says_already_exists before = false ->
  error_entry bad = false ->
  scan_errors (before ++ bad :: after) = Err AttributeError.
Proof.
  induction before as [|e before IH]; simpl; intros Hs Hn Hb.
  - destruct bad as [| | | | |l|d]; simpl in *; try reflexivity.
    destruct (lookup "message" d) as [[| | | |m| |]|]; simpl in *;
      try reflexivity; discriminate.
  - apply andb_true_iff in Hs. destruct Hs as [He Hs].
    apply orb_false_iff in Hn. destruct Hn as [Hm Hn].
    destruct e as [| | | | |l|d]; simpl in *; try discriminate.
    destruct (lookup "message" d) as [[| | | |m| |]|]; simpl in *; try discriminate.
    + rewrite Hm. now apply IH.
    + now apply IH.
Qed.

(** X19. The error list of a 422 is read in order and only up to the first
    entry that is not an object with a string message: when such an entry
    comes before any entry that says the repository exists, [create_repo]
    returns failure, whatever the entries after it say. *)
Theorem create_repo_unreadable_entry cfg env name t r before bad after :
  env t (creation_call cfg name) = Returns r ->
  status_code r = 422 ->
  error_list r = Some (before ++ bad :: after)%list ->
  forallb error_entry before = true ->
  existsb says_already_exists before = false ->
  error_entry bad = false ->
  create_repo cfg env name t
  = (Ok false, (t ++ [Called (creation_call cfg name) (Returns r)])%list).
Proof.
  intros Hc H422 Hl Hs Hn Hb.
  rewrite (create_repo_run _ _ _ _ _ Hc), H422,
    (inspect_errors_list _ _ Hl), (scan_errors_stops _ _ _ Hs Hn Hb).
  reflexivity.
Qed.

Lemma create_repo_unreadable_entry_witness :
  create_repo Sample.cfg Cases.odd "tds_demo_2345" []
  = (Ok false,
     [Called (creation_call Sample.cfg "tds_demo_2345") (Returns Cases.odd_errors)]).
Proof.
  apply (create_repo_unreadable_entry Sample.cfg Cases.odd "tds_demo_2345" []
           Cases.odd_errors [] (VDict [("message", VNone)])
           [VDict [("message", VStr "name already exists")]]);
    reflexivity.
Defined.

(** X20. An evaluator that answers the first POST with a status in 200..299
    is contacted once: the notifier returns true after that one call, without
    sleeping. *)
Theorem notify_evaluator_first_try env url payload max_retries t r :
  env t (Post url payload 10) = Returns r ->
  200 <= status_code r < 300 ->
  notify_evaluator env url payload max_retries t
  = (Ok true, (t ++ [Called (Post url payload 10) (Returns r)])%list).
Proof.
  intros He Hs. unfold notify_evaluator, delays.
  rewrite notify_round_passed; rewrite He; [ reflexivity | ].
  simpl. apply negb_false_iff, andb_true_iff. split; lia.
Qed.

Lemma notify_evaluator_first_try_witness :
  notify_evaluator Sample.all_fine (VStr "http://eval.test/") VNone 4 []
  = (Ok true,
     [Called (Post (VStr "http://eval.test/") VNone 10) (Returns (mkResponse 200 None))]).
Proof.
  apply (notify_evaluator_first_try Sample.all_fine (VStr "http://eval.test/") VNone 4 []
           (mkResponse 200 None)).
  - reflexivity.
  - simpl. lia.
Defined.

Lemma slept_app t s : slept (t ++ s) = slept t + slept s.
Proof.
  induction t as [|[c o|d] t IH]; simpl; [ reflexivity | exact IH | ].
  rewrite IH. lia.
Qed.

(** X21. The notifier sleeps 30 seconds in all when it gives up, and at most
    14 seconds before an attempt that succeeds. *)
Theorem notify_evaluator_sleeps env url payload max_retries t :
  (fst (notify_evaluator env url payload max_retries t) = Ok false
   /\ slept (snd (notify_evaluator env url payload max_retries t)) = slept t + 30)
  \/
  (fst (notify_evaluator env url payload max_retries t) = Ok true
   /\ slept t <= slept (snd (notify_evaluator env url payload max_retries t))
      <= slept t + 14).
Proof.
  unfold notify_evaluator.
  destruct (notify_rounds_shape env url payload delays t)
    as (outs & _ & [(Hl & Hr) | (r & Hl & _ & Hr)]); rewrite Hr; simpl fst; simpl snd.
  - left. split; [ reflexivity | ]. rewrite slept_app.
    destruct outs as [|o1 [|o2 [|o3 [|o4 [|? ?]]]]]; try discriminate Hl.
    simpl. lia.
  - right. split; [ reflexivity | ]. rewrite !slept_app.
    destruct outs as [|o1 [|o2 [|o3 [|o4 ?]]]]; simpl in Hl; try lia; simpl; lia.
Qed.

(** * The repository name *)

Lemma append_cancel (s a b : string) : s ++ a = s ++ b -> a = b.
Proof.
  induction s as [|c s IH]; simpl; [ trivial | ].
  intros [= H]. now apply IH.
Qed.

Lemma decimal_inj a b : decimal a = decimal b -> a = b.
Proof.
  unfold decimal. intros H. apply DecimalZ.to_int_inj.
  assert (Hn : forall z, Z.to_int z <> Decimal.Pos Decimal.Nil
                         /\ Z.to_int z <> Decimal.Neg Decimal.Nil).
  { intros [|p|p]; simpl; split; try discriminate;
      intros [= E]; now apply DecimalPos.Unsigned.to_uint_nonnil in E. }
  destruct (Hn a) as [Ha Ha'], (Hn b) as [Hb Hb'].
  apply (f_equal NilZero.int_of_string) in H.
  rewrite !NilZero.isi in H by assumption. now injection H.
Qed.

(** X22. For one task, two requests get the same repository name exactly when
    the times they are handled at agree modulo 10000 seconds. *)
Theorem repo_name_collision c1 c2 task :
  repo_name_of c1 task = repo_name_of c2 task
  <-> time_time c1 mod 10000 = time_time c2 mod 10000.
Proof.
  unfold repo_name_of. split.
  - intros H. do 3 apply append_cancel in H. now apply decimal_inj.
  - now intros ->.
Qed.

(** * Who passes validation *)

(** X23. A JSON object is answered with the invalid-secret error exactly when
    its secret field, read as [None] when missing, is not the configured
    secret: only the same string passes, or, with no secret configured, a
    missing or null field. *)
Theorem handle_validation cfg clock env d t :
  fst (handle cfg clock env (VDict d) t)
  = Ok (VDict [("status", VStr "error"); ("reason", VStr "Invalid secret")])
  <-> secret_of d <> of_env (SECRET cfg).
Proof.
  unfold handle. unfold bind at 1, lift at 1, get at 1. fold (secret_of d).
  destruct (ne_env (secret_of d) (SECRET cfg)) eqn:Hne.
  - split; [ | reflexivity ]. intros _ Heq.
    apply ne_env_false in Heq. congruence.
  - apply ne_env_false in Hne. split; [ | now intros H; elim H ].
    intros H. exfalso. revert H.
    match goal with
    | |- fst (?c t) = _ -> False =>
        assert (Ha : avoids (VDict [("status", VStr "error");
                                    ("reason", VStr "Invalid secret")]) c)
          by avoids_tac;
        exact (Ha t)
    end.
Qed.
